(** * Call assembly, admission and lifecycle of the fn agent

    A shallow embedding of [api/agent/call.go]: the configurators
    ([FromRequest], [FromEvent], [FromHTTPTriggerRequest], [FromModel], ...),
    the config synthesis ([buildConfig], [buildTriggerConfig]), the assembler
    [GetCall] with its admission check, and the two lifecycle methods
    [Start] and [End] of [call].

    Go code that mutates becomes a function in a small state monad; the
    state carries the objects reached through pointers ([*models.Route],
    [*models.Fn]), the state of the collaborators, and the ordered record of
    every call made to a collaborator.  A Go panic is an outcome of its own. *)

From Stdlib Require Import ZArith NArith Lia.
From stdpp Require Import gmap strings list fin_maps pretty.

Open Scope string_scope.

(** ** Errors *)

(** Go's [error] values that call.go tells apart or builds.  [errorString]
    is what [errors.New] and [fmt.Errorf] return; [foreign] stands for any
    other error value a collaborator hands in, with its message. *)
Inductive error : Type :=
| DeadlineExceeded
| Canceled
| ErrCallTimeoutServerBusy
| errorString (s : string)
| foreign (tag : N) (s : string).

#[global] Instance error_eq_dec : EqDecision error.
Proof. solve_decision. Defined.

Definition errors_New (s : string) : error := errorString s.

(** ** Machine integers *)

(** Conversion to, and arithmetic in, [uint64]. *)
Definition uint64 (n : N) : N := (n mod 2 ^ 64)%N.

(** [fmt.Sprintf("%d", n)] for an unsigned [n]. *)
Definition Sprintf_d (n : N) : string := pretty n.

(** ** The models package *)

Abbreviation Config := (gmap string string).
Abbreviation Annotations := (gmap string string).
Abbreviation Header := (gmap string (list string)).

Definition Time := Z.

(** Modelled from the spec: the constants of the models package that
    call.go names ([models.FormatDefault], [models.FormatCloudEvent],
    [models.TypeAsync]); the spec gives the formats as default and cloudevent
    and the execution types as sync and async. *)
Definition FormatDefault : string := "default".
Definition FormatCloudEvent : string := "cloudevent".
Definition TypeSync : string := "sync".
Definition TypeAsync : string := "async".

Definition ceMimeType : string := "application/cloudevents+json".

(** Modelled from the spec: [models.App], with the fields call.go reads. *)
Record App := {
  App_ID : string;
  App_Name : string;
  App_Config : Config;
  App_Annotations : Annotations;
  App_SyslogURL : option string
}.

(** Modelled from the spec: [models.Route], with the fields call.go reads
    and writes.  [Memory] and [CPUs] are unsigned 64-bit, [TmpFsSize]
    unsigned 32-bit, the timeouts signed 32-bit. *)
Record Route := {
  Route_Path : string;
  Route_Image : string;
  Route_Type : string;
  Route_Format : string;
  Route_Timeout : Z;
  Route_IdleTimeout : Z;
  Route_TmpFsSize : N;
  Route_Memory : N;
  Route_CPUs : N;
  Route_Config : Config;
  Route_Annotations : Annotations;
  Route_Headers : Header
}.

(** [route.Format = f] *)
Definition Route_set_Format (f : string) (r : Route) : Route :=
  {| Route_Path := Route_Path r; Route_Image := Route_Image r;
     Route_Type := Route_Type r; Route_Format := f;
     Route_Timeout := Route_Timeout r; Route_IdleTimeout := Route_IdleTimeout r;
     Route_TmpFsSize := Route_TmpFsSize r; Route_Memory := Route_Memory r;
     Route_CPUs := Route_CPUs r; Route_Config := Route_Config r;
     Route_Annotations := Route_Annotations r; Route_Headers := Route_Headers r |}.

(** Modelled from the spec: [models.Fn], with the fields call.go reads and
    writes. *)
Record Fn := {
  Fn_ID : string;
  Fn_Image : string;
  Fn_Format : string;
  Fn_Timeout : Z;
  Fn_IdleTimeout : Z;
  Fn_Memory : N;
  Fn_Config : Config;
  Fn_Annotations : Annotations
}.

(** [fn.Format = f] *)
Definition Fn_set_Format (f : string) (fn : Fn) : Fn :=
  {| Fn_ID := Fn_ID fn; Fn_Image := Fn_Image fn; Fn_Format := f;
     Fn_Timeout := Fn_Timeout fn; Fn_IdleTimeout := Fn_IdleTimeout fn;
     Fn_Memory := Fn_Memory fn; Fn_Config := Fn_Config fn;
     Fn_Annotations := Fn_Annotations fn |}.

(** Modelled from the spec: [models.Trigger], with the fields call.go reads. *)
Record Trigger := {
  Trigger_ID : string;
  Trigger_Source : string;
  Trigger_Annotations : Annotations
}.

(** Modelled from the spec: [drivers.Stat], one statistics sample. *)
Record Stat := {
  Timestamp : Time;
  Metrics : list (string * N)
}.

(** Modelled from the spec: [models.Call], with the fields call.go reads
    and writes.  A field left out of a Go struct literal has its zero
    value. *)
Record models_Call := {
  ID : string;
  Path : string;
  Image : string;
  Type_ : string;
  Format : string;
  Priority : option Z;
  Timeout : Z;
  IdleTimeout : Z;
  TmpFsSize : N;
  Memory : N;
  CPUs : N;
  Config_ : Config;
  Annotations_ : Annotations;
  Headers : Header;
  CreatedAt : Time;
  URL : string;
  Method : string;
  AppID : string;
  FnID : string;
  TriggerID : string;
  SyslogURL : string;
  Payload : string;
  StartedAt : Time;
  CompletedAt : Time;
  Status : string;
  Error_ : string;
  Stats : list Stat
}.

Definition set_Payload (v : string) (m : models_Call) : models_Call :=
  let '(Build_models_Call a b c d e f g h i j k l m' n o p q r s t u _ w x y z st) := m in
  Build_models_Call a b c d e f g h i j k l m' n o p q r s t u v w x y z st.

Definition set_StartedAt (v : Time) (m : models_Call) : models_Call :=
  let '(Build_models_Call a b c d e f g h i j k l m' n o p q r s t u pl _ x y z st) := m in
  Build_models_Call a b c d e f g h i j k l m' n o p q r s t u pl v x y z st.

Definition set_CompletedAt (v : Time) (m : models_Call) : models_Call :=
  let '(Build_models_Call a b c d e f g h i j k l m' n o p q r s t u pl w _ y z st) := m in
  Build_models_Call a b c d e f g h i j k l m' n o p q r s t u pl w v y z st.

Definition set_Status (v : string) (m : models_Call) : models_Call :=
  let '(Build_models_Call a b c d e f g h i j k l m' n o p q r s t u pl w x _ z st) := m in
  Build_models_Call a b c d e f g h i j k l m' n o p q r s t u pl w x v z st.

Definition set_Error (v : string) (m : models_Call) : models_Call :=
  let '(Build_models_Call a b c d e f g h i j k l m' n o p q r s t u pl w x y _ st) := m in
  Build_models_Call a b c d e f g h i j k l m' n o p q r s t u pl w x y v st.

Definition set_Stats (v : list Stat) (m : models_Call) : models_Call :=
  let '(Build_models_Call a b c d e f g h i j k l m' n o p q r s t u pl w x y z _) := m in
  Build_models_Call a b c d e f g h i j k l m' n o p q r s t u pl w x y z v.

(** ** net/http and cloudevent values *)

Record url_URL := {
  Scheme : string;
  Host : string;
  RawPath : string
}.

(** An [*http.Request]: [Body] is the handle of the stream, whose content
    is only known to the outside world. *)
Record Request := {
  Req_Header : Header;
  Req_Method : string;
  Req_URL : url_URL;
  Req_Host : string;
  Req_TLS : bool;
  Req_Body : N
}.

(** [h.Get(key)] for a key already in canonical form. *)
Definition Header_Get (h : Header) (key : string) : string :=
  match h !! key with
  | Some (v :: _) => v
  | _ => ""
  end.

(** A value held in a [map[string]interface{}]: a pointer to one of the three
    models (nil pointer: [None]), the nil interface, or anything else. *)
Inductive iface : Type :=
| I_nil
| I_App (p : option App)
| I_Fn (p : option Fn)
| I_Trigger (p : option Trigger)
| I_other (descr : string).

(** The dynamic value of [event.Extensions], an [interface{}]. *)
Inductive Extensions : Type :=
| Ext_nil
| Ext_map (ext : gmap string iface)
| Ext_other (descr : string).

Record CloudEvent := {
  ce_Extensions : Extensions
}.

(** A [context.Context], as far as call.go looks at it: [ctx.Err()]. *)
Record Ctx := {
  ctx_Err : option error
}.

(** The [io.Writer] of a call: an [http.ResponseWriter], the call's own
    log stream, or some other writer. *)
Inductive Writer : Type :=
| ResponseWriter (rw : N)
| StderrWriter (stderr : N)
| OtherWriter (wr : N).

(** ** What the outside world sees

    Every call to a collaborator, in the order the code makes it. *)
Inductive Event : Type :=
| LogDebugf (msg : string) (err : error)
| LogError (msg : string) (err : error)
| HeaderAdd (rw : N) (key value : string)
| HeaderSet (rw : N) (key value : string)
| CallOverride (m : models_Call) (ext : gmap string string)
| AdmissionCheck (mem cpu : N) (async : bool)
| HandlerStart (m : models_Call)
| HandlerFinish (m : models_Call) (stderr : option N) (async : bool)
| StderrClose (stderr : N)
| FireBeforeCall (m : models_Call)
| FireAfterCall (m : models_Call).

(** The lifecycle hooks among the events. *)
Definition is_hook (e : Event) : bool :=
  match e with
  | HandlerStart _ | HandlerFinish _ _ _ | FireBeforeCall _ | FireAfterCall _ => true
  | _ => false
  end.

(** How the race in [setCallPayload] ended: the reader goroutine delivered
    the body, it delivered a read error, or [ctx.Done()] was selected. *)
Inductive PayloadOutcome : Type :=
| ReadDone (payload : string)
| ReadFailed (e : error)
| CtxDoneFirst.

(** ** Outside call.go

    The functions call.go uses from the Go library and from packages whose
    sources are elsewhere, and the state [W] of everything outside the call
    (clock, id generator, request bodies, datastore, listeners). *)
Class Platform := {
  W : Type;
  (** [common.DateTime(time.Now())] *)
  time_Now : W -> Time * W;
  (** [id.New().String()] *)
  id_New : W -> string * W;
  (** [mime.ParseMediaType]: the media type and the error *)
  mime_ParseMediaType : string -> string * option error;
  (** [time.Duration.String] *)
  Duration_String : Z -> string;
  (** [String] of a [url.URL] *)
  URL_String : url_URL -> string;
  (** [models.MilliCPUs.String] *)
  MilliCPUs_String : N -> string;
  (** [Validate] of a [models.Route] *)
  Route_Validate : Route -> option error;
  (** [models.Annotations.MergeChange] *)
  MergeChange : Annotations -> Annotations -> Annotations;
  (** which branch of the [select] in [setCallPayload] is taken *)
  payload_race : Ctx -> N -> W -> PayloadOutcome * W;
  (** [setupLogger(ctx, maxLogSize, call)]: the handle of the log stream *)
  setupLogger : Ctx -> N -> option models_Call -> W -> N * W;
  (** the text of [models.ErrCallTimeoutServerBusy] *)
  ErrCallTimeoutServerBusy_text : string
}.

(** [err.Error()] *)
Definition Error `{Platform} (e : error) : string :=
  match e with
  | DeadlineExceeded => "context deadline exceeded"
  | Canceled => "context canceled"
  | ErrCallTimeoutServerBusy => ErrCallTimeoutServerBusy_text
  | errorString s => s
  | foreign _ s => s
  end.

(** [fmt.Errorf(prefix ++ "%v", err)] *)
Definition fmt_Errorf_v `{Platform} (prefix : string) (err : error) : error :=
  errorString (prefix +:+ Error err).

Section Agent.
Context `{Platform}.

(** *** The state monad *)

(** [routes] and [fns] hold the [models.Route] and [models.Fn] objects that
    configurators reach through the pointers their callers gave them. *)
Record State := {
  world : W;
  trace : list Event;
  routes : gmap N Route;
  fns : gmap N Fn
}.

Inductive Res (A : Type) : Type :=
| Ret (a : A) (s : State)
| Panicked (why : string) (s : State).
#[global] Arguments Ret {A} a s.
#[global] Arguments Panicked {A} why s.

Definition M (A : Type) : Type := State -> Res A.

Definition ret {A} (a : A) : M A := fun s => Ret a s.

Definition bind {A B} (m : M A) (k : A -> M B) : M B :=
  fun s => match m s with
           | Ret a s' => k a s'
           | Panicked why s' => Panicked why s'
           end.

Definition panic {A} (why : string) : M A := fun s => Panicked why s.

Notation "x <- m ;; k" := (bind m (fun x => k))
  (at level 20, m at level 99, k at level 200, only parsing).
Notation "' p <- m ;; k" := (bind m (fun x => let 'p := x in k))
  (at level 20, p pattern, m at level 99, k at level 200, only parsing).

(** Calls to a collaborator are put on record. *)
Definition emits (es : list Event) : M unit :=
  fun s => Ret tt {| world := world s; trace := trace s ++ es;
                     routes := routes s; fns := fns s |}.

Definition emit (e : Event) : M unit := emits [e].

(** Run a collaborator on the outside world. *)
Definition outside {A} (f : W -> A * W) : M A :=
  fun s => let '(a, w') := f (world s) in
           Ret a {| world := w'; trace := trace s;
                    routes := routes s; fns := fns s |}.

Definition nil_deref : string := "invalid memory address or nil pointer dereference".

(** Dereference of a pointer or a call through an interface value. *)
Definition deref {A} (p : option A) : M A :=
  match p with
  | Some a => ret a
  | None => panic nil_deref
  end.

Definition load_route (p : N) : M Route := fun s => deref (routes s !! p) s.

Definition store_route (p : N) (r : Route) : M unit :=
  fun s => Ret tt {| world := world s; trace := trace s;
                     routes := <[p := r]> (routes s); fns := fns s |}.

Definition load_fn (p : N) : M Fn := fun s => deref (fns s !! p) s.

Definition store_fn (p : N) (f : Fn) : M unit :=
  fun s => Ret tt {| world := world s; trace := trace s;
                     routes := routes s; fns := <[p := f]> (fns s) |}.

(** *** Collaborators

    The hooks receive the call's model to read: status and timestamps have
    the lifecycle methods as their only writer. *)
Record CallHandler := {
  handler_Start : Ctx -> models_Call -> W -> option error * W;
  handler_Finish : Ctx -> models_Call -> option N -> bool -> W -> option error * W
}.

Record callTrigger := {
  fireBeforeCall : Ctx -> models_Call -> W -> option error * W;
  fireAfterCall : Ctx -> models_Call -> W -> option error * W
}.

Record ResourceTracker := {
  IsResourcePossible : N -> N -> bool -> W -> bool * W
}.

(** The overrider may rewrite the model it is given, and returns the
    extensions and an error. *)
Definition CallOverrider : Type :=
  models_Call -> gmap string string -> W -> (models_Call * gmap string string * option error) * W.

(** *** The call *)

(** The fields of [call] that call.go touches; [call_Call] is the embedded
    [*models.Call], nil until a source configurator has run. *)
Record call := {
  call_Call : option models_Call;
  IsCloudEvent : bool;
  handler : option CallHandler;
  w : option Writer;
  stderr : option N;
  ct : option callTrigger;
  slotHashId : string;
  isLB : bool;
  extensions : gmap string string
}.

(** [var c call] *)
Definition zero_call : call :=
  {| call_Call := None; IsCloudEvent := false; handler := None; w := None;
     stderr := None; ct := None; slotHashId := ""; isLB := false;
     extensions := ∅ |}.

Definition set_call_Call (v : option models_Call) (c : call) : call :=
  {| call_Call := v; IsCloudEvent := IsCloudEvent c; handler := handler c;
     w := w c; stderr := stderr c; ct := ct c; slotHashId := slotHashId c;
     isLB := isLB c; extensions := extensions c |}.

Definition set_IsCloudEvent (v : bool) (c : call) : call :=
  {| call_Call := call_Call c; IsCloudEvent := v; handler := handler c;
     w := w c; stderr := stderr c; ct := ct c; slotHashId := slotHashId c;
     isLB := isLB c; extensions := extensions c |}.

Definition set_handler (v : option CallHandler) (c : call) : call :=
  {| call_Call := call_Call c; IsCloudEvent := IsCloudEvent c; handler := v;
     w := w c; stderr := stderr c; ct := ct c; slotHashId := slotHashId c;
     isLB := isLB c; extensions := extensions c |}.

Definition set_w (v : option Writer) (c : call) : call :=
  {| call_Call := call_Call c; IsCloudEvent := IsCloudEvent c; handler := handler c;
     w := v; stderr := stderr c; ct := ct c; slotHashId := slotHashId c;
     isLB := isLB c; extensions := extensions c |}.

Definition set_stderr (v : option N) (c : call) : call :=
  {| call_Call := call_Call c; IsCloudEvent := IsCloudEvent c; handler := handler c;
     w := w c; stderr := v; ct := ct c; slotHashId := slotHashId c;
     isLB := isLB c; extensions := extensions c |}.

Definition set_ct (v : option callTrigger) (c : call) : call :=
  {| call_Call := call_Call c; IsCloudEvent := IsCloudEvent c; handler := handler c;
     w := w c; stderr := stderr c; ct := v; slotHashId := slotHashId c;
     isLB := isLB c; extensions := extensions c |}.

Definition set_extensions (v : gmap string string) (c : call) : call :=
  {| call_Call := call_Call c; IsCloudEvent := IsCloudEvent c; handler := handler c;
     w := w c; stderr := stderr c; ct := ct c; slotHashId := slotHashId c;
     isLB := isLB c; extensions := v |}.

(** A configurator mutates the call under assembly and returns an error. *)
Definition CallOpt : Type := Ctx -> call -> M (call * option error).

(** *** Config synthesis *)

(** [for k, v := range src { conf[k] = v }] *)
Definition copy_into (src conf : Config) : Config :=
  map_fold (fun k v acc => <[k := v]> acc) conf src.

Definition buildConfig (app : App) (route : Route) : Config :=
  let conf : Config := ∅ in
  let conf := copy_into (App_Config app) conf in
  let conf := copy_into (Route_Config route) conf in
  let conf := <["FN_FORMAT" := Route_Format route]> conf in
  let conf := <["FN_APP_NAME" := App_Name app]> conf in
  let conf := <["FN_PATH" := Route_Path route]> conf in
  let conf := <["FN_MEMORY" := Sprintf_d (Route_Memory route)]> conf in
  let conf := <["FN_TYPE" := Route_Type route]> conf in
  let conf := <["FN_TMPSIZE" := Sprintf_d (Route_TmpFsSize route)]> conf in
  let CPUs := MilliCPUs_String (Route_CPUs route) in
  if decide (CPUs ≠ "") then <["FN_CPUS" := CPUs]> conf else conf.

Definition buildTriggerConfig (app : App) (fn : Fn) (trigger : Trigger) : Config :=
  let conf : Config := ∅ in
  let conf := copy_into (App_Config app) conf in
  let conf := copy_into (Fn_Config fn) conf in
  let conf := <["FN_FORMAT" := Fn_Format fn]> conf in
  let conf := <["FN_APP_NAME" := App_Name app]> conf in
  let conf := <["FN_PATH" := Trigger_Source trigger]> conf in
  let conf := <["FN_MEMORY" := Sprintf_d (Fn_Memory fn)]> conf in
  let conf := <["FN_TYPE" := "sync"]> conf in
  let conf := <["FN_FN_ID" := Fn_ID fn]> conf in
  conf.

(** [reqURL]: the string of the request's URL once scheme and host are
    filled in. *)
Definition reqURL (req : Request) : string :=
  let u := Req_URL req in
  let u := if decide (Scheme u = "")
           then {| Scheme := if Req_TLS req then "https" else "http";
                   Host := Host u; RawPath := RawPath u |}
           else u in
  let u := if decide (Host u = "")
           then {| Scheme := Scheme u; Host := Req_Host req; RawPath := RawPath u |}
           else u in
  URL_String u.

(** *** Payload *)

(** [c.Payload = buf.String()] *)
Definition write_Payload (payload : string) (c : call) : M call :=
  m <- deref (call_Call c) ;;
  ret (set_call_Call (Some (set_Payload payload m)) c).

(** [setCallPayload]: the goroutine reads the whole body while the caller
    waits for its result or for the context, whichever [select] takes. *)
Definition setCallPayload (ctx : Ctx) (input : N) (c : call) : M (call * option error) :=
  o <- outside (payload_race ctx input) ;;
  match o with
  | ReadDone payload => c' <- write_Payload payload c ;; ret (c', None)
  | ReadFailed e => ret (c, Some e)
  | CtxDoneFirst => ret (c, ctx_Err ctx)
  end.

(** *** Source configurators *)

(** The zero value of [models.Call]. *)
Definition zero_models_Call : models_Call :=
  {| ID := ""; Path := ""; Image := ""; Type_ := ""; Format := "";
     Priority := None; Timeout := 0; IdleTimeout := 0; TmpFsSize := 0;
     Memory := 0; CPUs := 0; Config_ := ∅; Annotations_ := ∅; Headers := ∅;
     CreatedAt := 0%Z; URL := ""; Method := ""; AppID := ""; FnID := "";
     TriggerID := ""; SyslogURL := ""; Payload := ""; StartedAt := 0%Z;
     CompletedAt := 0%Z; Status := ""; Error_ := ""; Stats := [] |}.

(** [rw.Header().Add(k, v)] for every value of every header of the route;
    Go leaves the order of the keys open, here it is that of
    [map_to_list]. *)
Definition route_header_adds (rw : N) (r : Route) : list Event :=
  flat_map (fun kv => map (HeaderAdd rw (fst kv)) (snd kv))
           (map_to_list (Route_Headers r)).

(** [var syslogURL string; if app.SyslogURL != nil { syslogURL = *app.SyslogURL }] *)
Definition syslogURL_of (app : App) : string :=
  match App_SyslogURL app with
  | Some u => u
  | None => ""
  end.

Definition FromRequest (app : App) (route : N) (req : Request) : CallOpt :=
  fun ctx c =>
    let contentType := Header_Get (Req_Header req) "Content-Type" in
    let '(t, err) := mime_ParseMediaType contentType in
    c <- match err with
         | Some e =>
             _ <- emit (LogDebugf "Could not parse Content-Type header: %v" e) ;;
             ret c
         | None =>
             if decide (t = ceMimeType) then
               r <- load_route route ;;
               _ <- store_route route (Route_set_Format FormatCloudEvent r) ;;
               ret (set_IsCloudEvent true c)
             else ret c
         end ;;
    r <- load_route route ;;
    _ <- (if decide (Route_Format r = "")
          then store_route route (Route_set_Format FormatDefault r)
          else ret tt) ;;
    id <- outside id_New ;;
    r <- load_route route ;;
    _ <- match w c with
         | Some (ResponseWriter rw) =>
             emits (HeaderAdd rw "FN_CALL_ID" id :: route_header_adds rw r)
         | _ => ret tt
         end ;;
    match Route_Validate r with
    | Some e => ret (c, Some e)
    | None =>
        let syslogURL := syslogURL_of app in
        let conf := buildConfig app r in
        let ann := MergeChange (App_Annotations app) (Route_Annotations r) in
        now <- outside time_Now ;;
        let m :=
          {| ID := id; Path := Route_Path r; Image := Route_Image r;
             Type_ := Route_Type r; Format := Route_Format r;
             Priority := Some 0%Z; Timeout := Route_Timeout r;
             IdleTimeout := Route_IdleTimeout r; TmpFsSize := Route_TmpFsSize r;
             Memory := Route_Memory r; CPUs := Route_CPUs r; Config_ := conf;
             Annotations_ := ann; Headers := Req_Header req; CreatedAt := now;
             URL := reqURL req; Method := Req_Method req; AppID := App_ID app;
             FnID := ""; TriggerID := ""; SyslogURL := syslogURL; Payload := "";
             StartedAt := 0%Z; CompletedAt := 0%Z; Status := ""; Error_ := "";
             Stats := [] |} in
        setCallPayload ctx (Req_Body req) (set_call_Call (Some m) c)
    end.

Definition assertion_failed : string := "interface conversion: wrong dynamic type".

(** The type assertions of [v] to a pointer to [models.App], [models.Fn]
    and [models.Trigger], in the one-result form, which panics on any other
    dynamic type and on nil. *)
Definition assert_App (v : option iface) : M (option App) :=
  match v with
  | Some (I_App p) => ret p
  | _ => panic assertion_failed
  end.

Definition assert_Fn (v : option iface) : M (option Fn) :=
  match v with
  | Some (I_Fn p) => ret p
  | _ => panic assertion_failed
  end.

Definition assert_Trigger (v : option iface) : M (option Trigger) :=
  match v with
  | Some (I_Trigger p) => ret p
  | _ => panic assertion_failed
  end.

Definition FromEvent (event : CloudEvent) : CallOpt :=
  fun ctx c =>
    match ce_Extensions event with
    | Ext_map ext =>
        app <- assert_App (ext !! "app") ;;
        fn <- assert_Fn (ext !! "fn") ;;
        trigger <- assert_Trigger (ext !! "fn") ;;
        app <- deref app ;;
        let syslogURL := syslogURL_of app in
        id <- outside id_New ;;
        fn <- deref fn ;;
        trigger <- deref trigger ;;
        let ann := MergeChange (MergeChange (App_Annotations app) (Fn_Annotations fn))
                               (Trigger_Annotations trigger) in
        let m :=
          {| ID := id; Path := ""; Image := Fn_Image fn; Type_ := "sync";
             Format := "cloudevent"; Priority := None; Timeout := Fn_Timeout fn;
             IdleTimeout := Fn_IdleTimeout fn; TmpFsSize := 0;
             Memory := Fn_Memory fn; CPUs := 0; Config_ := ∅;
             Annotations_ := ann; Headers := ∅; CreatedAt := 0%Z; URL := "";
             Method := ""; AppID := ""; FnID := ""; TriggerID := "";
             SyslogURL := syslogURL; Payload := ""; StartedAt := 0%Z;
             CompletedAt := 0%Z; Status := ""; Error_ := ""; Stats := [] |} in
        ret (set_call_Call (Some m) c, None)
    | _ =>
        ret (c, Some (errors_New "cloud event extensions must be marshaled with known type"))
    end.

Definition FromHTTPTriggerRequest (app : App) (fn : N) (trigger : Trigger)
    (req : Request) : CallOpt :=
  fun ctx c =>
    let contentType := Header_Get (Req_Header req) "Content-Type" in
    let '(t, err) := mime_ParseMediaType contentType in
    c <- match err with
         | Some e =>
             _ <- emit (LogDebugf "Could not parse Content-Type header: %v" e) ;;
             ret c
         | None =>
             if decide (t = ceMimeType) then
               f <- load_fn fn ;;
               _ <- store_fn fn (Fn_set_Format FormatCloudEvent f) ;;
               ret (set_IsCloudEvent true c)
             else ret c
         end ;;
    f <- load_fn fn ;;
    _ <- (if decide (Fn_Format f = "")
          then store_fn fn (Fn_set_Format FormatDefault f)
          else ret tt) ;;
    id <- outside id_New ;;
    _ <- match w c with
         | Some (ResponseWriter rw) => emit (HeaderAdd rw "FN_CALL_ID" id)
         | _ => ret tt
         end ;;
    let syslogURL := syslogURL_of app in
    f <- load_fn fn ;;
    let conf := buildTriggerConfig app f trigger in
    let ann := MergeChange (MergeChange (App_Annotations app) (Fn_Annotations f))
                           (Trigger_Annotations trigger) in
    now <- outside time_Now ;;
    let m :=
      {| ID := id; Path := Trigger_Source trigger; Image := Fn_Image f;
         Type_ := "sync"; Format := Fn_Format f; Priority := Some 0%Z;
         Timeout := Fn_Timeout f; IdleTimeout := Fn_IdleTimeout f;
         TmpFsSize := 0; Memory := Fn_Memory f; CPUs := 0; Config_ := conf;
         Annotations_ := ann; Headers := Req_Header req; CreatedAt := now;
         URL := reqURL req; Method := Req_Method req; AppID := App_ID app;
         FnID := Fn_ID f; TriggerID := Trigger_ID trigger;
         SyslogURL := syslogURL; Payload := ""; StartedAt := 0%Z;
         CompletedAt := 0%Z; Status := ""; Error_ := ""; Stats := [] |} in
    setCallPayload ctx (Req_Body req) (set_call_Call (Some m) c).

Definition FromModel (mCall : models_Call) : CallOpt :=
  fun ctx c => ret (set_call_Call (Some mCall) c, None).

Definition FromModelAndInput (mCall : models_Call) (input : N) : CallOpt :=
  fun ctx c => setCallPayload ctx input (set_call_Call (Some mCall) c).

Definition WithWriter (wr : Writer) : CallOpt :=
  fun ctx c => ret (set_w (Some wr) c, None).

Definition WithExtensions (ext : gmap string string) : CallOpt :=
  fun ctx c => ret (set_extensions ext c, None).

(** *** Assembly and admission *)

(** What the agent package supplies besides call.go. *)
Class AgentPkg := {
  (** [setupCtx(&c)] *)
  setupCtx : call -> W -> call * W
}.
Context `{AgentPkg}.

(** The fields of [agent] that call.go reads; [agent_ct] is the agent in
    its role of [callTrigger]. *)
Record agent := {
  cfg_MaxLogSize : N;
  da : option CallHandler;
  callOverrider : option CallOverrider;
  resources : ResourceTracker;
  agent_ct : callTrigger
}.

(** [for _, o := range opts { err := o(ctx, &c); if err != nil { return nil, err } }] *)
Fixpoint apply_opts (ctx : Ctx) (opts : list CallOpt) (c : call) : M (call * option error) :=
  match opts with
  | [] => ret (c, None)
  | o :: rest =>
      '(c', err) <- o ctx c ;;
      match err with
      | Some e => ret (c', Some e)
      | None => apply_opts ctx rest c'
      end
  end.

(** The overrider step of [GetCall], on a call whose model is [m]. *)
Definition override (a : agent) (m : models_Call) (c : call) : M (call * option error) :=
  match callOverrider a with
  | Some ov =>
      _ <- emit (CallOverride m (extensions c)) ;;
      '(m', ext, err) <- outside (ov m (extensions c)) ;;
      match err with
      | Some e => ret (set_call_Call (Some m') c, Some e)
      | None => ret (set_extensions ext (set_call_Call (Some m') c), None)
      end
  | None => ret (c, None)
  end.

(** [GetCall] from the admission check on, for a call whose model is [m]. *)
Definition admission (a : agent) (ctx : Ctx) (m : models_Call) (c : call) : M (option call * option error) :=
  let mem := uint64 (Memory m + uint64 (TmpFsSize m)) in
  _ <- emit (AdmissionCheck mem (uint64 (CPUs m)) (bool_decide (Type_ m = TypeAsync))) ;;
  ok <- outside (IsResourcePossible (resources a) mem (uint64 (CPUs m))
                   (bool_decide (Type_ m = TypeAsync))) ;;
  if negb ok then ret (None, Some ErrCallTimeoutServerBusy)
  else
    c <- outside (setupCtx c) ;;
    let c := set_handler (da a) c in
    let c := set_ct (Some (agent_ct a)) c in
    se <- outside (setupLogger ctx (cfg_MaxLogSize a) (call_Call c)) ;;
    let c := set_stderr (Some se) c in
    let c := match w c with
             | None => set_w (Some (StderrWriter se)) c
             | Some _ => c
             end in
    ret (Some c, None).

Definition GetCall (a : agent) (ctx : Ctx) (opts : list CallOpt) : M (option call * option error) :=
  '(c, err) <- apply_opts ctx opts zero_call ;;
  match err with
  | Some e => ret (None, Some e)
  | None =>
      match call_Call c with
      | None => ret (None, Some (errors_New "no model or request provided for call"))
      | Some m =>
          '(c, err) <- override a m c ;;
          match err with
          | Some e => ret (None, Some e)
          | None =>
              m <- deref (call_Call c) ;;
              admission a ctx m c
          end
      end
  end.

(** *** Decimation *)

(** The bucket, out of [maxSamples], that sample [x] of [len] falls in. *)
Definition bucket (maxSamples len x : nat) : nat := x * maxSamples / len.

(** Keep the first sample of every bucket, going through the samples in
    order; [x] is the index of the head of [stats]. *)
Fixpoint decimate_from (maxSamples len x : nat) (stats : list Stat) : list Stat :=
  match stats with
  | [] => []
  | st :: rest =>
      if (x =? 0)%nat || negb (bucket maxSamples len x =? bucket maxSamples len (x - 1))%nat
      then st :: decimate_from maxSamples len (S x) rest
      else decimate_from maxSamples len (S x) rest
  end.

(** Modelled from the spec: [drivers.Decimate], which is not among the
    sources.  The spec has it bound a series to a fixed maximum sample
    count: a series of more than [maxSamples] samples is reduced to exactly
    [maxSamples] representative samples in chronological order.  Here a
    series within the bound is returned as it is, and a longer one is cut
    into [maxSamples] consecutive buckets with the first sample of each
    bucket as its representative. *)
Definition Decimate (maxSamples : nat) (stats : list Stat) : list Stat :=
  if (length stats <=? maxSamples)%nat then stats
  else if (maxSamples <=? 0)%nat then []
  else decimate_from maxSamples (length stats) 0 stats.

(** *** Lifecycle *)

(** [c.Status] after the [switch errIn] of [End], and with it [c.Error]. *)
Definition record_outcome (errIn : option error) (m : models_Call) : models_Call :=
  match errIn with
  | None => set_Status "success" m
  | Some e =>
      if decide (e = DeadlineExceeded) then set_Status "timeout" m
      else set_Error (Error e) (set_Status "error" m)
  end.

Definition call_Start (ctx : Ctx) (c : call) : M (call * option error) :=
  match ctx_Err ctx with
  | Some e => ret (c, Some e)
  | None =>
      m <- deref (call_Call c) ;;
      now <- outside time_Now ;;
      let m := set_StartedAt now m in
      let m := set_Status "running" m in
      let c := set_call_Call (Some m) c in
      _ <- (if negb (isLB c) then
              match w c with
              | Some (ResponseWriter rw) =>
                  emit (HeaderSet rw "XXX-FXLB-WAIT"
                          (Duration_String (StartedAt m - CreatedAt m)%Z))
              | _ => ret tt
              end
            else ret tt) ;;
      err <- (if decide (Type_ m = TypeAsync) then
                h <- deref (handler c) ;;
                _ <- emit (HandlerStart m) ;;
                outside (handler_Start h ctx m)
              else ret None) ;;
      match err with
      | Some e => ret (c, Some e)
      | None =>
          t <- deref (ct c) ;;
          _ <- emit (FireBeforeCall m) ;;
          err <- outside (fireBeforeCall t ctx m) ;;
          match err with
          | Some e => ret (c, Some (fmt_Errorf_v "BeforeCall: " e))
          | None => ret (c, None)
          end
      end
  end.

Definition call_End (ctx : Ctx) (errIn : option error) (c : call) : M (call * option error) :=
  m <- deref (call_Call c) ;;
  now <- outside time_Now ;;
  let m := set_CompletedAt now m in
  let m := record_outcome errIn m in
  let m := set_Stats (Decimate 240 (Stats m)) m in
  let c := set_call_Call (Some m) c in
  h <- deref (handler c) ;;
  _ <- emit (HandlerFinish m (stderr c) (bool_decide (Type_ m = TypeAsync))) ;;
  err <- outside (handler_Finish h ctx m (stderr c) (bool_decide (Type_ m = TypeAsync))) ;;
  _ <- match err with
       | Some e => emit (LogError "error finalizing call on datastore/mq" e)
       | None => ret tt
       end ;;
  se <- deref (stderr c) ;;
  _ <- emit (StderrClose se) ;;
  t <- deref (ct c) ;;
  _ <- emit (FireAfterCall m) ;;
  err <- outside (fireAfterCall t ctx m) ;;
  match err with
  | Some e => ret (c, Some (fmt_Errorf_v "AfterCall: " e))
  | None => ret (c, errIn)
  end.

End Agent.

(** ** Vocabulary of the statements *)

Section Vocabulary.
Context `{Platform}.

(** The configurators of a list succeed one after the other, each on the
    call and the state the one before it left. *)
Inductive applied_in_order (ctx : Ctx) : list CallOpt -> call -> State -> call -> State -> Prop :=
| applied_none c s : applied_in_order ctx [] c s c s
| applied_next o rest c s c1 s1 c' s' :
    o ctx c s = Ret (c1, None) s1 ->
    applied_in_order ctx rest c1 s1 c' s' ->
    applied_in_order ctx (o :: rest) c s c' s'.

(** A computation that fires no lifecycle hook: whatever it puts on
    record is no hook. *)
Definition hook_free {A} (m : M A) : Prop :=
  forall s a s', m s = Ret a s' ->
    exists es, trace s' = (trace s ++ es)%list /\ Forall (fun e => is_hook e = false) es.

(** The Content-Type of the request parses to the cloud event media type. *)
Definition ce_detected (req : Request) : bool :=
  let '(t, err) := mime_ParseMediaType (Header_Get (Req_Header req) "Content-Type") in
  match err with
  | Some _ => false
  | None => bool_decide (t = ceMimeType)
  end.

(** The format of the call: forced for a cloud event, else the one the
    source declares, else the default. *)
Definition chosen_format (detected : bool) (declared : string) : string :=
  if detected then FormatCloudEvent
  else if decide (declared = "") then FormatDefault
  else declared.

(** The error [setCallPayload] returns for an outcome of its race. *)
Definition payload_error (ctx : Ctx) (o : PayloadOutcome) : option error :=
  match o with
  | ReadDone _ => None
  | ReadFailed e => Some e
  | CtxDoneFirst => ctx_Err ctx
  end.

(** The keys [buildConfig] may write. *)
Definition buildConfig_keys : list string :=
  ["FN_FORMAT"; "FN_APP_NAME"; "FN_PATH"; "FN_MEMORY"; "FN_TYPE"; "FN_TMPSIZE"; "FN_CPUS"].

(** The keys [buildTriggerConfig] writes. *)
Definition buildTriggerConfig_keys : list string :=
  ["FN_FORMAT"; "FN_APP_NAME"; "FN_PATH"; "FN_MEMORY"; "FN_TYPE"; "FN_FN_ID"].

(** The model of the call once [End] has run on it at time [now]. *)
Definition ended (errIn : option error) (now : Time) (m : models_Call) : models_Call :=
  let m := set_CompletedAt now m in
  let m := record_outcome errIn m in
  set_Stats (Decimate 240 (Stats m)) m.

(** Two models with the same execution parameters: everything but the
    lifecycle fields. *)
Definition same_parameters (m m' : models_Call) : Prop :=
  ID m' = ID m /\ Path m' = Path m /\ Image m' = Image m /\ Type_ m' = Type_ m /\
  Format m' = Format m /\ Priority m' = Priority m /\ Timeout m' = Timeout m /\
  IdleTimeout m' = IdleTimeout m /\ TmpFsSize m' = TmpFsSize m /\
  Memory m' = Memory m /\ CPUs m' = CPUs m /\ Config_ m' = Config_ m /\
  Annotations_ m' = Annotations_ m /\ Headers m' = Headers m /\
  CreatedAt m' = CreatedAt m /\ URL m' = URL m /\ Method m' = Method m /\
  AppID m' = AppID m /\ FnID m' = FnID m /\ TriggerID m' = TriggerID m /\
  SyslogURL m' = SyslogURL m /\ Payload m' = Payload m.

(** The header in which [Start] reports how long the call waited. *)
Definition wait_header (c : call) (m : models_Call) : list Event :=
  if isLB c then []
  else match w c with
       | Some (ResponseWriter rw) =>
           [HeaderSet rw "XXX-FXLB-WAIT" (Duration_String (StartedAt m - CreatedAt m)%Z)]
       | _ => []
       end.

(** The model of the call once [Start] has marked it at time [now]. *)
Definition started (now : Time) (m : models_Call) : models_Call :=
  set_Status "running" (set_StartedAt now m).

(** What the Content-Type check logs: the parse error, if there is one. *)
Definition sniff_log (req : Request) : list Event :=
  match snd (mime_ParseMediaType (Header_Get (Req_Header req) "Content-Type")) with
  | Some e => [LogDebugf "Could not parse Content-Type header: %v" e]
  | None => []
  end.

(** The source of a call as a configurator leaves it: the flag set for a
    cloud event. *)
Definition flagged (req : Request) (c : call) : call :=
  if ce_detected req then set_IsCloudEvent true c else c.

(** The URL that [reqURL] prints: scheme and host filled in when empty. *)
Definition filled_URL (req : Request) : url_URL :=
  {| Scheme := if decide (Scheme (Req_URL req) = "")
               then (if Req_TLS req then "https" else "http")
               else Scheme (Req_URL req);
     Host := if decide (Host (Req_URL req) = "") then Req_Host req
             else Host (Req_URL req);
     RawPath := RawPath (Req_URL req) |}.


End Vocabulary.

(** ** A platform to run the definitions on *)

Module Fixture.

Definition platform : Platform :=
  {| W := nat;
     time_Now := fun n => (Z.of_nat n, S n);
     id_New := fun n => ("01C" +:+ pretty n, S n);
     mime_ParseMediaType := fun s =>
       if decide (s = "") then ("", Some (errorString "mime: no media type"))
       else if decide (s = "application/cloudevents+json; charset=UTF-8")
            then ("application/cloudevents+json", None)
            else (s, None);
     Duration_String := fun d => pretty d +:+ "ns";
     URL_String := fun u => Scheme u +:+ "://" +:+ Host u +:+ RawPath u;
     MilliCPUs_String := fun n => if (n =? 0)%N then "" else pretty n +:+ "m";
     Route_Validate := fun r =>
       if decide (Route_Image r = "") then Some (errorString "Missing route Image")
       else None;
     MergeChange := fun a b => b ∪ a;
     payload_race := fun ctx body n => (ReadDone "{}", n);
     setupLogger := fun ctx size m n => (7%N, n);
     ErrCallTimeoutServerBusy_text := "server too busy" |}.

#[local] Existing Instance platform.

Definition pkg : @AgentPkg platform :=
  {| setupCtx := fun c n => (c, n) |}.

#[local] Existing Instance pkg.

Definition app : App :=
  {| App_ID := "app1"; App_Name := "myapp";
     App_Config := {[ "FN_CPUS" := "900m"; "KEY" := "from-app" ]};
     App_Annotations := ∅; App_SyslogURL := None |}.

(** An app without config of its own. *)
Definition plain_app : App :=
  {| App_ID := "app2"; App_Name := "plain"; App_Config := ∅;
     App_Annotations := ∅; App_SyslogURL := None |}.

Definition route : Route :=
  {| Route_Path := "/hello"; Route_Image := "fnproject/hello"; Route_Type := "sync";
     Route_Format := ""; Route_Timeout := 30; Route_IdleTimeout := 30;
     Route_TmpFsSize := 0; Route_Memory := 128; Route_CPUs := 0;
     Route_Config := {[ "KEY" := "from-route" ]}; Route_Annotations := ∅;
     Route_Headers := ∅ |}.

Definition fn : Fn :=
  {| Fn_ID := "fn1"; Fn_Image := "fnproject/hello"; Fn_Format := "";
     Fn_Timeout := 30; Fn_IdleTimeout := 30; Fn_Memory := 128;
     Fn_Config := ∅; Fn_Annotations := ∅ |}.

Definition trigger : Trigger :=
  {| Trigger_ID := "t1"; Trigger_Source := "/hello"; Trigger_Annotations := ∅ |}.

Definition request (contentType : string) : Request :=
  {| Req_Header := {[ "Content-Type" := [contentType] ]}; Req_Method := "POST";
     Req_URL := {| Scheme := ""; Host := ""; RawPath := "/r/myapp/hello" |};
     Req_Host := "localhost:8080"; Req_TLS := false; Req_Body := 1%N |}.

(** [route] without an image, which does not validate. *)
Definition no_image : Route :=
  {| Route_Path := "/hello"; Route_Image := ""; Route_Type := "sync";
     Route_Format := ""; Route_Timeout := 30; Route_IdleTimeout := 30;
     Route_TmpFsSize := 0; Route_Memory := 128; Route_CPUs := 0;
     Route_Config := ∅; Route_Annotations := ∅; Route_Headers := ∅ |}.

(** A state with [route] at address 1, [fn] at address 2 and [no_image] at
    address 3. *)
Definition state : @State platform :=
  {| world := 0%nat; trace := [];
     routes := {[ 1%N := route; 3%N := no_image ]}; fns := {[ 2%N := fn ]} |}.

Definition stat (t : Z) : Stat := {| Timestamp := t; Metrics := [] |}.

(** 241 samples, one per second. *)
Definition long_stats : list Stat := map (fun i => stat (Z.of_nat i)) (seq 0 241).

Definition model : models_Call :=
  {| ID := "01C0"; Path := "/hello"; Image := "fnproject/hello"; Type_ := "sync";
     Format := "default"; Priority := Some 0%Z; Timeout := 30; IdleTimeout := 30;
     TmpFsSize := 256; Memory := 128; CPUs := 100; Config_ := ∅; Annotations_ := ∅;
     Headers := ∅; CreatedAt := 0%Z; URL := ""; Method := "POST"; AppID := "app1";
     FnID := ""; TriggerID := ""; SyslogURL := ""; Payload := ""; StartedAt := 0%Z;
     CompletedAt := 0%Z; Status := ""; Error_ := ""; Stats := long_stats |}.

(** A persistence collaborator whose [Finish] fails. *)
Definition failing_handler : @CallHandler platform :=
  {| handler_Start := fun ctx m n => (None, n);
     handler_Finish := fun ctx m se async n => (Some (foreign 1 "datastore down"), n) |}.

(** Listeners whose [AfterCall] fails. *)
Definition failing_trigger : @callTrigger platform :=
  {| fireBeforeCall := fun ctx m n => (None, n);
     fireAfterCall := fun ctx m n => (Some (foreign 2 "listener failed"), n) |}.

Definition quiet_trigger : @callTrigger platform :=
  {| fireBeforeCall := fun ctx m n => (None, n);
     fireAfterCall := fun ctx m n => (None, n) |}.

(** A machine with no room at all. *)
Definition full_machine : @ResourceTracker platform :=
  {| IsResourcePossible := fun mem cpu async n => (false, n) |}.

Definition busy_agent : @agent platform :=
  {| cfg_MaxLogSize := 1024; da := Some failing_handler; callOverrider := None;
     resources := full_machine; agent_ct := quiet_trigger |}.

(** A call as [GetCall] hands it out. *)
Definition assembled : @call platform :=
  {| call_Call := Some model; IsCloudEvent := false; handler := Some failing_handler;
     w := Some (ResponseWriter 3); stderr := Some 7%N; ct := Some failing_trigger;
     slotHashId := ""; isLB := false; extensions := ∅ |}.

Definition background : Ctx := {| ctx_Err := None |}.
Definition cancelled : Ctx := {| ctx_Err := Some Canceled |}.

(** A configurator that fails. *)
Definition failing_opt : @CallOpt platform :=
  fun ctx c s => Ret (c, Some (foreign 3 "bad option")) s.

(** A well-shaped extension map, as [buildCloudEvent] sets it up. *)
Definition well_shaped : CloudEvent :=
  {| ce_Extensions := Ext_map {[ "app" := I_App (Some app); "fn" := I_Fn (Some fn);
                                 "trigger" := I_Trigger (Some trigger) ]} |}.

(** An extension map without the app entry. *)
Definition no_app : CloudEvent :=
  {| ce_Extensions := Ext_map {[ "fn" := I_Fn (Some fn);
                                 "trigger" := I_Trigger (Some trigger) ]} |}.

(** [model] as an async call. *)
Definition async_model : models_Call :=
  {| ID := "01C1"; Path := "/hello"; Image := "fnproject/hello"; Type_ := "async";
     Format := "default"; Priority := Some 0%Z; Timeout := 30; IdleTimeout := 30;
     TmpFsSize := 0; Memory := 128; CPUs := 0; Config_ := ∅; Annotations_ := ∅;
     Headers := ∅; CreatedAt := 0%Z; URL := ""; Method := "POST"; AppID := "app1";
     FnID := ""; TriggerID := ""; SyslogURL := ""; Payload := ""; StartedAt := 0%Z;
     CompletedAt := 0%Z; Status := ""; Error_ := ""; Stats := [] |}.

(** A model whose memory and tmpfs size together pass 2^64. *)
Definition huge_model : models_Call :=
  {| ID := "01C2"; Path := "/hello"; Image := "fnproject/hello"; Type_ := "sync";
     Format := "default"; Priority := Some 0%Z; Timeout := 30; IdleTimeout := 30;
     TmpFsSize := 2; Memory := 18446744073709551615; CPUs := 0; Config_ := ∅;
     Annotations_ := ∅; Headers := ∅; CreatedAt := 0%Z; URL := ""; Method := "POST";
     AppID := "app1"; FnID := ""; TriggerID := ""; SyslogURL := ""; Payload := "";
     StartedAt := 0%Z; CompletedAt := 0%Z; Status := ""; Error_ := ""; Stats := [] |}.

(** A persistence collaborator whose [Start] fails. *)
Definition refusing_handler : @CallHandler platform :=
  {| handler_Start := fun ctx m n => (Some (foreign 4 "queue busy"), n);
     handler_Finish := fun ctx m se async n => (None, n) |}.

(** An async call whose reservation will fail. *)
Definition queued : @call platform :=
  {| call_Call := Some async_model; IsCloudEvent := false;
     handler := Some refusing_handler; w := None; stderr := Some 7%N;
     ct := Some quiet_trigger; slotHashId := ""; isLB := false; extensions := ∅ |}.

(** An async call whose reservation will succeed. *)
Definition reserved : @call platform :=
  {| call_Call := Some async_model; IsCloudEvent := false;
     handler := Some failing_handler; w := None; stderr := Some 7%N;
     ct := Some quiet_trigger; slotHashId := ""; isLB := false; extensions := ∅ |}.

(** A machine with room for everything. *)
Definition roomy_machine : @ResourceTracker platform :=
  {| IsResourcePossible := fun mem cpu async n => (true, n) |}.

Definition roomy_agent : @agent platform :=
  {| cfg_MaxLogSize := 1024; da := Some failing_handler; callOverrider := None;
     resources := roomy_machine; agent_ct := quiet_trigger |}.

(** An overrider that refuses every call. *)
Definition refusing_overrider : @CallOverrider platform :=
  fun m ext n => ((m, ext, Some (foreign 5 "not allowed")), n).

Definition overruled_agent : @agent platform :=
  {| cfg_MaxLogSize := 1024; da := Some failing_handler;
     callOverrider := Some refusing_overrider;
     resources := roomy_machine; agent_ct := quiet_trigger |}.

(** [model] without statistics. *)
Definition sync_model : models_Call :=
  {| ID := "01C3"; Path := "/hello"; Image := "fnproject/hello"; Type_ := "sync";
     Format := "default"; Priority := Some 0%Z; Timeout := 30; IdleTimeout := 30;
     TmpFsSize := 0; Memory := 128; CPUs := 0; Config_ := ∅; Annotations_ := ∅;
     Headers := ∅; CreatedAt := 0%Z; URL := ""; Method := "POST"; AppID := "app1";
     FnID := ""; TriggerID := ""; SyslogURL := ""; Payload := ""; StartedAt := 0%Z;
     CompletedAt := 0%Z; Status := ""; Error_ := ""; Stats := [] |}.

(** A sync call, not yet started, with an HTTP response as writer. *)
Definition waiting : @call platform :=
  {| call_Call := Some sync_model; IsCloudEvent := false;
     handler := Some failing_handler; w := Some (ResponseWriter 3); stderr := Some 7%N;
     ct := Some quiet_trigger; slotHashId := ""; isLB := false; extensions := ∅ |}.

End Fixture.

(** ** Properties *)

Section Correctness.
Context `{Platform} `{!AgentPkg}.

(** *** Config synthesis *)

(** Copying a map into another is a union in which the copied entries win. *)
Lemma copy_into_union (src conf : Config) : copy_into src conf = src ∪ conf.
Proof.
  unfold copy_into.
  apply (map_fold_weak_ind (fun r m => r = m ∪ conf)).
  - by rewrite (left_id_L ∅ (∪)).
  - intros k v m r _ ->. by rewrite insert_union_l.
Qed.

(** [Sprintf_d] prints in decimal. *)
Lemma Sprintf_d_128 : Sprintf_d 128 = "128".
Proof. reflexivity. Qed.

(** C4, as amended: [buildConfig] writes format, app name, path, memory,
    type and tmpfs size over whatever the merged app and route config held,
    and the CPU key when the CPU string is not empty (when it is empty the
    key is left as the user config has it); [buildTriggerConfig] writes
    format, app name, path, memory, type and function id, and neither the
    tmpfs size nor the CPU key; every other key is as in the merged config,
    where the route or function wins over the app. *)
Theorem buildConfig_synthesized (app : App) (route : Route) (fn : Fn) (trigger : Trigger) :
  let conf := buildConfig app route in
  let user := Route_Config route ∪ App_Config app in
  let cpus := MilliCPUs_String (Route_CPUs route) in
  let tconf := buildTriggerConfig app fn trigger in
  let tuser := Fn_Config fn ∪ App_Config app in
  (conf !! "FN_FORMAT" = Some (Route_Format route) /\
   conf !! "FN_APP_NAME" = Some (App_Name app) /\
   conf !! "FN_PATH" = Some (Route_Path route) /\
   conf !! "FN_MEMORY" = Some (Sprintf_d (Route_Memory route)) /\
   conf !! "FN_TYPE" = Some (Route_Type route) /\
   conf !! "FN_TMPSIZE" = Some (Sprintf_d (Route_TmpFsSize route)) /\
   conf !! "FN_CPUS" = (if decide (cpus = "") then user !! "FN_CPUS" else Some cpus) /\
   (forall k, k ∉ buildConfig_keys -> conf !! k = user !! k)) /\
  (tconf !! "FN_FORMAT" = Some (Fn_Format fn) /\
   tconf !! "FN_APP_NAME" = Some (App_Name app) /\
   tconf !! "FN_PATH" = Some (Trigger_Source trigger) /\
   tconf !! "FN_MEMORY" = Some (Sprintf_d (Fn_Memory fn)) /\
   tconf !! "FN_TYPE" = Some "sync" /\
   tconf !! "FN_FN_ID" = Some (Fn_ID fn) /\
   tconf !! "FN_TMPSIZE" = tuser !! "FN_TMPSIZE" /\
   tconf !! "FN_CPUS" = tuser !! "FN_CPUS" /\
   (forall k, k ∉ buildTriggerConfig_keys -> tconf !! k = tuser !! k)).
Proof.
  cbv zeta. unfold buildConfig, buildTriggerConfig, buildConfig_keys, buildTriggerConfig_keys.
  rewrite !copy_into_union, !(right_id_L ∅ (∪)).
  split.
  - destruct (decide (MilliCPUs_String (Route_CPUs route) ≠ "")) as [Hne|He].
    + rewrite (decide_False (P := MilliCPUs_String (Route_CPUs route) = "")) by done.
      repeat split; try (by simplify_map_eq).
      intros k Hk. rewrite !not_elem_of_cons in Hk.
      destruct Hk as (?&?&?&?&?&?&?&_). by simplify_map_eq.
    + assert (MilliCPUs_String (Route_CPUs route) = "") as Heq
        by (destruct (decide (MilliCPUs_String (Route_CPUs route) = "")); [done | contradiction]).
      rewrite (decide_True (P := MilliCPUs_String (Route_CPUs route) = "")) by done.
      repeat split; try (by simplify_map_eq).
      intros k Hk. rewrite !not_elem_of_cons in Hk.
      destruct Hk as (?&?&?&?&?&?&?&_). by simplify_map_eq.
  - repeat split; try (by simplify_map_eq).
    intros k Hk. rewrite !not_elem_of_cons in Hk.
    destruct Hk as (?&?&?&?&?&?&_). by simplify_map_eq.
Qed.

(** *** Start *)

(** C7: with a context that is already done, [Start] returns the error of
    the context and leaves the call, the collaborators, the objects behind
    pointers and the record of calls made as they were: no timestamp, no
    status, no header, no persistence hook, no [BeforeCall]. *)
Theorem Start_done_context (ctx : Ctx) (e : error) (c : call) (s : State) :
  ctx_Err ctx = Some e ->
  call_Start ctx c s = Ret (c, Some e) s.
Proof.
  intros He. unfold call_Start. by rewrite He.
Qed.

(** *** Decimation *)

Lemma bucket_mono (maxSamples len x y : nat) :
  x <= y -> bucket maxSamples len x <= bucket maxSamples len y.
Proof.
  intros Hxy. unfold bucket.
  apply Nat.Div0.div_le_mono. by apply Nat.mul_le_mono_r.
Qed.

(** Buckets are no wider than one sample apart when there are at least as
    many samples as buckets. *)
Lemma bucket_step (maxSamples len x : nat) :
  0 < len -> maxSamples <= len ->
  bucket maxSamples len (S x) <= S (bucket maxSamples len x).
Proof.
  intros Hlen Hmax. unfold bucket.
  transitivity ((x * maxSamples + 1 * len) / len).
  - apply Nat.Div0.div_le_mono. lia.
  - rewrite Nat.div_add by lia. lia.
Qed.

Lemma bucket_last (maxSamples len : nat) :
  0 < maxSamples -> maxSamples <= len ->
  bucket maxSamples len (len - 1) = maxSamples - 1.
Proof.
  intros Hmax Hlen. unfold bucket.
  symmetry. apply (Nat.div_unique _ _ _ (len - maxSamples)); nia.
Qed.

Lemma decimate_from_length (maxSamples len : nat) (stats : list Stat) :
  forall x, 0 < len -> maxSamples <= len -> 0 < x -> x + length stats = len ->
    length (decimate_from maxSamples len x stats) =
    bucket maxSamples len (len - 1) - bucket maxSamples len (x - 1).
Proof.
  induction stats as [|st rest IH]; intros x Hlen Hmax Hx Hsum; simpl in *.
  - replace x with len by lia. lia.
  - destruct x as [|x]; [lia|]. simpl.
    replace (x - 0) with x by lia.
    pose proof (bucket_step maxSamples len x Hlen Hmax) as Hstep.
    pose proof (bucket_mono maxSamples len x (S x) ltac:(lia)) as Hmono.
    pose proof (bucket_mono maxSamples len (S x) (len - 1) ltac:(lia)) as Hend.
    destruct (Nat.eqb_spec (bucket maxSamples len (S x)) (bucket maxSamples len x)) as [Heq|Hne];
      simpl; rewrite IH by lia; simpl; replace (x - 0) with x by lia; lia.
Qed.

(** More samples than the bound: exactly the bound is kept. *)
Lemma Decimate_length (maxSamples : nat) (stats : list Stat) :
  0 < maxSamples -> maxSamples < length stats ->
  length (Decimate maxSamples stats) = maxSamples.
Proof.
  intros Hmax Hlen. unfold Decimate.
  destruct (Nat.leb_spec (length stats) maxSamples); [lia|].
  destruct (Nat.leb_spec maxSamples 0); [lia|].
  destruct stats as [|st rest]; simpl in *; [lia|].
  rewrite decimate_from_length by (simpl; lia).
  rewrite bucket_last by lia.
  replace (bucket maxSamples (S (length rest)) (1 - 1)) with 0; [lia|].
  unfold bucket. by rewrite Nat.sub_diag, Nat.mul_0_l, Nat.Div0.div_0_l.
Qed.

Lemma decimate_from_sublist (maxSamples len : nat) (stats : list Stat) :
  forall x, decimate_from maxSamples len x stats `sublist_of` stats.
Proof.
  induction stats as [|st rest IH]; intros x; simpl.
  - constructor.
  - destruct (_ || _).
    + by apply sublist_skip.
    + by apply sublist_cons.
Qed.

(** What is kept are samples of the series, in the order of the series. *)
Lemma Decimate_sublist (maxSamples : nat) (stats : list Stat) :
  Decimate maxSamples stats `sublist_of` stats.
Proof.
  unfold Decimate.
  destruct (length stats <=? maxSamples)%nat; [done|].
  destruct (maxSamples <=? 0)%nat; [apply sublist_nil_l|].
  apply decimate_from_sublist.
Qed.

(** *** End *)

Lemma ended_fields (errIn : option error) (now : Time) (m : models_Call) :
  CompletedAt (ended errIn now m) = now /\
  Status (ended errIn now m) = Status (record_outcome errIn m) /\
  Error_ (ended errIn now m) = Error_ (record_outcome errIn m) /\
  Stats (ended errIn now m) = Decimate 240 (Stats m) /\
  Type_ (ended errIn now m) = Type_ m.
Proof.
  unfold ended, record_outcome. destruct m, errIn as [e|]; simpl;
    [destruct (decide (e = DeadlineExceeded))|]; simpl; done.
Qed.

(** One run of [End] on an assembled call, step by step. *)
Lemma call_End_exec (ctx : Ctx) (errIn : option error) (c : call) (s : State)
    (m : models_Call) (h : CallHandler) (se : N) (t : callTrigger)
    (now : Time) (w1 w2 w3 : W) (ferr aerr : option error) :
  call_Call c = Some m -> handler c = Some h -> stderr c = Some se -> ct c = Some t ->
  time_Now (world s) = (now, w1) ->
  let m' := ended errIn now m in
  let async := bool_decide (Type_ m' = TypeAsync) in
  handler_Finish h ctx m' (Some se) async w1 = (ferr, w2) ->
  fireAfterCall t ctx m' w2 = (aerr, w3) ->
  call_End ctx errIn c s =
    Ret (set_call_Call (Some m') c,
         match aerr with
         | Some e => Some (fmt_Errorf_v "AfterCall: " e)
         | None => errIn
         end)
        {| world := w3;
           trace := (trace s ++ [HandlerFinish m' (Some se) async]
                       ++ match ferr with
                          | Some e => [LogError "error finalizing call on datastore/mq" e]
                          | None => []
                          end
                       ++ [StderrClose se; FireAfterCall m'])%list;
           routes := routes s; fns := fns s |}.
Proof.
  intros Hm Hh Hse Ht Hnow m' async Hfin Haft.
  unfold call_End, bind, deref, ret, emit, emits, outside.
  rewrite Hm. simpl. rewrite Hnow. simpl. rewrite Hh, Hse. simpl.
  fold (ended errIn now m). fold m'. fold async.
  rewrite Hfin. simpl.
  destruct ferr as [fe|]; simpl; rewrite Ht; simpl; rewrite Haft;
    destruct aerr; simpl; by rewrite <- ?app_assoc.
Qed.

(** C2: [End] sets the completion time and derives the status from
    [errIn]: none gives success, [context.DeadlineExceeded] gives timeout,
    any other error gives error with the message of that error in the
    call's [Error] field. *)
Theorem End_status_mapping (ctx : Ctx) (errIn : option error) (c : call) (s : State)
    (m : models_Call) (h : CallHandler) (se : N) (t : callTrigger) :
  call_Call c = Some m -> handler c = Some h -> stderr c = Some se -> ct c = Some t ->
  exists c' m' r s',
    call_End ctx errIn c s = Ret (c', r) s' /\
    call_Call c' = Some m' /\
    CompletedAt m' = fst (time_Now (world s)) /\
    (errIn = None -> Status m' = "success") /\
    (errIn = Some DeadlineExceeded -> Status m' = "timeout") /\
    (forall e, errIn = Some e -> e <> DeadlineExceeded ->
       Status m' = "error" /\ Error_ m' = Error e).
Proof.
  intros Hm Hh Hse Ht.
  destruct (time_Now (world s)) as [now w1] eqn:Hnow.
  destruct (handler_Finish h ctx (ended errIn now m) (Some se)
              (bool_decide (Type_ (ended errIn now m) = TypeAsync)) w1) as [ferr w2] eqn:Hfin.
  destruct (fireAfterCall t ctx (ended errIn now m) w2) as [aerr w3] eqn:Haft.
  eexists _, (ended errIn now m), _, _.
  split; [by eapply call_End_exec|].
  destruct (ended_fields errIn now m) as (Hc & Hst & Herr & _).
  split; [done|]. split; [done|].
  rewrite Hst, Herr. unfold record_outcome.
  split; [|split].
  - intros ->. by destruct m.
  - intros ->. by destruct m.
  - intros e -> Hne. rewrite decide_False by done. by destruct m.
Qed.

(** C8: an error of the persistence [Finish] hook is logged and nothing
    else: the value [End] returns and the status it recorded are those of
    a run in which [Finish] succeeded.  [AfterCall] fires after [Finish] and
    after the log stream is closed, whether or not [Finish] failed; its
    error, prefixed with the name of the hook, is what [End] returns, and
    when it succeeds [End] returns [errIn] as it came. *)
Theorem End_finish_and_aftercall (ctx : Ctx) (errIn : option error) (c : call) (s : State)
    (m : models_Call) (h : CallHandler) (se : N) (t : callTrigger) :
  call_Call c = Some m -> handler c = Some h -> stderr c = Some se -> ct c = Some t ->
  exists now w1 ferr w2 aerr w3 m' c' r s',
    time_Now (world s) = (now, w1) /\
    handler_Finish h ctx m' (Some se) (bool_decide (Type_ m' = TypeAsync)) w1 = (ferr, w2) /\
    fireAfterCall t ctx m' w2 = (aerr, w3) /\
    call_End ctx errIn c s = Ret (c', r) s' /\
    call_Call c' = Some m' /\
    Status m' = Status (record_outcome errIn m) /\
    Error_ m' = Error_ (record_outcome errIn m) /\
    r = match aerr with
        | Some e => Some (errorString ("AfterCall: " +:+ Error e))
        | None => errIn
        end /\
    trace s' = (trace s
                ++ [HandlerFinish m' (Some se) (bool_decide (Type_ m' = TypeAsync))]
                ++ match ferr with
                   | Some e => [LogError "error finalizing call on datastore/mq" e]
                   | None => []
                   end
                ++ [StderrClose se; FireAfterCall m'])%list.
Proof.
  intros Hm Hh Hse Ht.
  destruct (time_Now (world s)) as [now w1] eqn:Hnow.
  destruct (handler_Finish h ctx (ended errIn now m) (Some se)
              (bool_decide (Type_ (ended errIn now m) = TypeAsync)) w1) as [ferr w2] eqn:Hfin.
  destruct (fireAfterCall t ctx (ended errIn now m) w2) as [aerr w3] eqn:Haft.
  exists now, w1, ferr, w2, aerr, w3, (ended errIn now m).
  eexists _, _, _.
  split; [done|]. split; [done|]. split; [done|].
  split; [by eapply call_End_exec|].
  destruct (ended_fields errIn now m) as (_ & Hst & Herr & _).
  by repeat split.
Qed.

(** C9: a call that ends with more than 240 samples leaves [End] with
    exactly 240 of them, taken from the raw series in its order, and the
    model that the persistence [Finish] hook is called with already holds
    the 240. *)
Theorem End_decimates_before_finish (ctx : Ctx) (errIn : option error) (c : call)
    (s : State) (m : models_Call) (h : CallHandler) (se : N) (t : callTrigger) :
  call_Call c = Some m -> handler c = Some h -> stderr c = Some se -> ct c = Some t ->
  240 < length (Stats m) ->
  exists c' m' r s' async later,
    call_End ctx errIn c s = Ret (c', r) s' /\
    call_Call c' = Some m' /\
    length (Stats m') = 240 /\
    Stats m' `sublist_of` Stats m /\
    trace s' = (trace s ++ HandlerFinish m' (Some se) async :: later)%list.
Proof.
  intros Hm Hh Hse Ht Hlen.
  destruct (time_Now (world s)) as [now w1] eqn:Hnow.
  destruct (handler_Finish h ctx (ended errIn now m) (Some se)
              (bool_decide (Type_ (ended errIn now m) = TypeAsync)) w1) as [ferr w2] eqn:Hfin.
  destruct (fireAfterCall t ctx (ended errIn now m) w2) as [aerr w3] eqn:Haft.
  eexists _, (ended errIn now m), _, _, _, _.
  split; [by eapply call_End_exec|].
  destruct (ended_fields errIn now m) as (_ & _ & _ & Hstats & _).
  rewrite Hstats. simpl.
  split; [done|]. split; [by apply Decimate_length; lia|].
  split; [apply Decimate_sublist|]. done.
Qed.

(** *** Event source *)

(** C3, as amended: [FromEvent] returns its error, and touches nothing,
    when the extensions of the event are not a map from strings to
    interface values; when they are such a map and the app or the fn entry
    is missing or is not a pointer to the expected model, the type assertion
    panics and no error is returned. *)
Theorem FromEvent_shape (event : CloudEvent) (ctx : Ctx) (c : call) (s : State) :
  match ce_Extensions event with
  | Ext_map ext =>
      (forall p, ext !! "app" <> Some (I_App p)) \/ (forall p, ext !! "fn" <> Some (I_Fn p)) ->
      FromEvent event ctx c s = Panicked assertion_failed s
  | _ =>
      FromEvent event ctx c s =
      Ret (c, Some (errors_New "cloud event extensions must be marshaled with known type")) s
  end.
Proof.
  unfold FromEvent. destruct (ce_Extensions event) as [|ext|]; [done| |done].
  unfold bind, assert_App, assert_Fn, panic, ret.
  intros [Happ|Hfn].
  - destruct (ext !! "app") as [[| pa | | |]|] eqn:E; try done; by destruct (Happ pa).
  - destruct (ext !! "app") as [[| pa | | |]|] eqn:E; try done.
    destruct (ext !! "fn") as [[| | pf | |]|] eqn:E'; try done; by destruct (Hfn pf).
Qed.

(** The trigger is asserted on the entry read under the key of the
    function, which the line before asserted to be a function: on a map,
    [FromEvent] panics whatever the map holds. *)
Lemma FromEvent_map_panics (event : CloudEvent) (ext : gmap string iface)
    (ctx : Ctx) (c : call) (s : State) :
  ce_Extensions event = Ext_map ext ->
  FromEvent event ctx c s = Panicked assertion_failed s.
Proof.
  intros Hext. unfold FromEvent. rewrite Hext.
  unfold bind, assert_App, assert_Fn, assert_Trigger, panic, ret.
  destruct (ext !! "app") as [[]|]; try done.
  destruct (ext !! "fn") as [[]|]; done.
Qed.

(** [FromEvent] populates no call. *)
Lemma FromEvent_never_succeeds (event : CloudEvent) (ctx : Ctx) (c c' : call) (s s' : State) :
  FromEvent event ctx c s <> Ret (c', None) s'.
Proof.
  destruct (ce_Extensions event) as [|ext|d] eqn:Hext.
  - unfold FromEvent. by rewrite Hext.
  - by rewrite (FromEvent_map_panics _ ext).
  - unfold FromEvent. by rewrite Hext.
Qed.

(** *** Assembly *)

Lemma apply_opts_app (ctx : Ctx) (before after : list CallOpt) (c c1 : call) (s s1 : State) :
  applied_in_order ctx before c s c1 s1 ->
  apply_opts ctx (before ++ after) c s = apply_opts ctx after c1 s1.
Proof.
  induction 1 as [|o rest c s c1 s1 c' s' Ho _ IH]; [done|].
  simpl. unfold bind at 1. by rewrite Ho.
Qed.

(** C6: [GetCall] runs the configurators in the order of the list, each
    on what the one before left; the error of the first that fails is what
    [GetCall] returns, with the state as that configurator left it, whatever
    comes after it in the list; and when all have run and the model of the
    call is still nil, [GetCall] fails with its own error. *)
Theorem GetCall_configurators (a : agent) (ctx : Ctx) (before after : list CallOpt)
    (o : CallOpt) (c1 : call) (s s1 : State) :
  applied_in_order ctx before zero_call s c1 s1 ->
  (forall c2 e s2, o ctx c1 s1 = Ret (c2, Some e) s2 ->
     GetCall a ctx (before ++ o :: after) s = Ret (None, Some e) s2) /\
  (call_Call c1 = None ->
     GetCall a ctx before s =
     Ret (None, Some (errors_New "no model or request provided for call")) s1).
Proof.
  intros Hbefore. split.
  - intros c2 e s2 Ho. unfold GetCall, bind.
    rewrite (apply_opts_app _ _ _ _ _ _ _ Hbefore). simpl.
    unfold bind. by rewrite Ho.
  - intros Hnil. unfold GetCall, bind.
    rewrite <- (app_nil_r before), (apply_opts_app _ _ _ _ _ _ _ Hbefore). simpl.
    unfold ret. by rewrite Hnil.
Qed.

(** *** Admission

    Nothing that call.go does before the lifecycle fires a hook: the
    building blocks first, then the configurators. *)
Lemma hook_free_ret {A} (a : A) : hook_free (ret a).
Proof.
  intros s a' s' [= <- <-]. exists []. by rewrite app_nil_r.
Qed.

Lemma hook_free_panic {A} (why : string) : hook_free (panic (A := A) why).
Proof. by intros s a s' ?. Qed.

Lemma hook_free_bind {A B} (m : M A) (k : A -> M B) :
  hook_free m -> (forall a, hook_free (k a)) -> hook_free (bind m k).
Proof.
  intros Hm Hk s b s' Hrun. unfold bind in Hrun.
  destruct (m s) as [a s1|] eqn:Hms; [|done].
  destruct (Hm _ _ _ Hms) as (es1 & E1 & Hes1).
  destruct (Hk _ _ _ _ Hrun) as (es2 & E2 & Hes2).
  exists (es1 ++ es2)%list. split; [by rewrite E2, E1, app_assoc|by apply Forall_app].
Qed.

Lemma hook_free_emits (es : list Event) :
  Forall (fun e => is_hook e = false) es -> hook_free (emits es).
Proof.
  intros Hes s a s' [= <- <-]. by exists es.
Qed.

Lemma hook_free_outside {A} (f : W -> A * W) : hook_free (outside f).
Proof.
  intros s a s'. unfold outside. destruct (f (world s)) as [a' w'].
  intros [= <- <-]. exists []. by rewrite app_nil_r.
Qed.

Lemma hook_free_deref {A} (p : option A) : hook_free (deref p).
Proof. destruct p; [apply hook_free_ret | apply hook_free_panic]. Qed.

Lemma hook_free_load_route (p : N) : hook_free (load_route p).
Proof. intros s a s' Hrun. by apply (hook_free_deref (routes s !! p) s a s'). Qed.

Lemma hook_free_load_fn (p : N) : hook_free (load_fn p).
Proof. intros s a s' Hrun. by apply (hook_free_deref (fns s !! p) s a s'). Qed.

Lemma hook_free_store_route (p : N) (r : Route) : hook_free (store_route p r).
Proof. intros s a s' [= <- <-]. exists []. by rewrite app_nil_r. Qed.

Lemma hook_free_store_fn (p : N) (f : Fn) : hook_free (store_fn p f).
Proof. intros s a s' [= <- <-]. exists []. by rewrite app_nil_r. Qed.

Lemma route_header_adds_no_hook (rw : N) (r : Route) :
  Forall (fun e => is_hook e = false) (route_header_adds rw r).
Proof.
  unfold route_header_adds. apply Forall_forall. intros e He.
  apply list_elem_of_In, in_flat_map in He. destruct He as ([k vs] & _ & He).
  apply in_map_iff in He. by destruct He as (v & <- & _).
Qed.

Ltac hook_free_step :=
  lazymatch goal with
  | |- hook_free (bind _ _) => apply hook_free_bind; [|intros]
  | |- hook_free (ret _) => apply hook_free_ret
  | |- hook_free (panic _) => apply hook_free_panic
  | |- hook_free (deref _) => apply hook_free_deref
  | |- hook_free (outside _) => apply hook_free_outside
  | |- hook_free (load_route _) => apply hook_free_load_route
  | |- hook_free (load_fn _) => apply hook_free_load_fn
  | |- hook_free (store_route _ _) => apply hook_free_store_route
  | |- hook_free (store_fn _ _) => apply hook_free_store_fn
  | |- hook_free (emit _) => apply hook_free_emits; by repeat constructor
  | |- hook_free (emits _) =>
      apply hook_free_emits; repeat constructor; apply route_header_adds_no_hook
  | |- hook_free (match ?x with _ => _ end) => destruct x
  end.

Lemma hook_free_setCallPayload (ctx : Ctx) (input : N) (c : call) :
  hook_free (setCallPayload ctx input c).
Proof. unfold setCallPayload, write_Payload. repeat hook_free_step. Qed.

Lemma hook_free_FromRequest app p req ctx c : hook_free (FromRequest app p req ctx c).
Proof.
  unfold FromRequest. repeat hook_free_step. all: apply hook_free_setCallPayload.
Qed.

Lemma hook_free_FromHTTPTriggerRequest app p trigger req ctx c :
  hook_free (FromHTTPTriggerRequest app p trigger req ctx c).
Proof.
  unfold FromHTTPTriggerRequest. repeat hook_free_step. all: apply hook_free_setCallPayload.
Qed.

Lemma hook_free_FromEvent event ctx c : hook_free (FromEvent event ctx c).
Proof.
  unfold FromEvent, assert_App, assert_Fn, assert_Trigger. repeat hook_free_step.
Qed.

Lemma hook_free_FromModel m ctx c : hook_free (FromModel m ctx c).
Proof. apply hook_free_ret. Qed.

Lemma hook_free_FromModelAndInput m input ctx c : hook_free (FromModelAndInput m input ctx c).
Proof. apply hook_free_setCallPayload. Qed.

Lemma hook_free_WithWriter wr ctx c : hook_free (WithWriter wr ctx c).
Proof. apply hook_free_ret. Qed.

Lemma hook_free_WithExtensions ext ctx c : hook_free (WithExtensions ext ctx c).
Proof. apply hook_free_ret. Qed.

Lemma hook_free_apply_opts (ctx : Ctx) (opts : list CallOpt) :
  Forall (fun o => forall ctx c, hook_free (o ctx c)) opts ->
  forall c, hook_free (apply_opts ctx opts c).
Proof.
  induction 1 as [|o rest Ho _ IH]; intros c; simpl.
  - apply hook_free_ret.
  - apply hook_free_bind; [apply Ho|]. intros [c' [e|]]; [apply hook_free_ret | apply IH].
Qed.

Lemma hook_free_override (a : agent) (m : models_Call) (c : call) :
  hook_free (override a m c).
Proof. unfold override. repeat hook_free_step. Qed.

Lemma override_keeps_model (a : agent) (m : models_Call) (c c' : call) (e : option error) (s s' : State) :
  call_Call c = Some m ->
  override a m c s = Ret (c', e) s' ->
  exists m', call_Call c' = Some m'.
Proof.
  intros Hm. unfold override, bind, emit, emits, outside, ret.
  destruct (callOverrider a) as [ov|]; simpl.
  - destruct (ov m (extensions c) (world s)) as [[[m' ext] [e'|]] w']; simpl;
      intros [= <- <- <-]; by exists m'.
  - intros [= <- <- <-]. by exists m.
Qed.

Lemma uint64_small (n : N) : (n < 2 ^ 64)%N -> uint64 n = n.
Proof. intros Hn. unfold uint64. by apply N.mod_small. Qed.

(** C1: once the configurators and the overrider have run, the resources
    are asked about the memory of the call plus its tmpfs size, added as
    64-bit unsigned numbers, about its CPUs on their own, and with the flag
    that says whether the call is async.  When the answer is no, [GetCall]
    returns [ErrCallTimeoutServerBusy] and no call, nothing but the question
    itself has been put on record since the overrider, and (for
    configurators that fire no hook, as all those of call.go) no lifecycle
    hook has fired since [GetCall] began. *)
Theorem GetCall_admission_reject (a : agent) (ctx : Ctx) (opts : list CallOpt)
    (s s1 s2 : State) (c c' : call) (m : models_Call) :
  Forall (fun o => forall ctx c, hook_free (o ctx c)) opts ->
  apply_opts ctx opts zero_call s = Ret (c, None) s1 ->
  call_Call c = Some m ->
  override a m c s1 = Ret (c', None) s2 ->
  exists m',
    call_Call c' = Some m' /\
    let mem := uint64 (Memory m' + uint64 (TmpFsSize m')) in
    let cpu := uint64 (CPUs m') in
    let async := bool_decide (Type_ m' = TypeAsync) in
    ((Memory m' + TmpFsSize m' < 2 ^ 64)%N -> mem = (Memory m' + TmpFsSize m')%N) /\
    ((CPUs m' < 2 ^ 64)%N -> cpu = CPUs m') /\
    forall w3, IsResourcePossible (resources a) mem cpu async (world s2) = (false, w3) ->
      exists s3 es,
        GetCall a ctx opts s = Ret (None, Some ErrCallTimeoutServerBusy) s3 /\
        world s3 = w3 /\
        trace s3 = (trace s2 ++ [AdmissionCheck mem cpu async])%list /\
        trace s3 = (trace s ++ es)%list /\
        Forall (fun e => is_hook e = false) es.
Proof.
  intros Hopts Happly Hm Hover.
  destruct (override_keeps_model _ _ _ _ _ _ _ Hm Hover) as [m' Hm'].
  exists m'. split; [done|]. cbv zeta. split; [|split].
  - intros Hsum. rewrite (uint64_small (TmpFsSize m')) by lia. by apply uint64_small.
  - apply uint64_small.
  - intros w3 Hres.
    destruct (hook_free_apply_opts ctx opts Hopts _ _ _ _ Happly) as (es1 & Hes1 & Hfree1).
    destruct (hook_free_override _ _ _ _ _ _ Hover) as (es2 & Hes2 & Hfree2).
    eexists _, (es1 ++ es2 ++ [AdmissionCheck _ _ _])%list.
    split; [|split; [|split; [|split]]].
    + unfold GetCall, bind. rewrite Happly. simpl. rewrite Hm.
      unfold bind. rewrite Hover. simpl. unfold deref. rewrite Hm'. unfold ret at 1.
      unfold admission, bind, emit, emits, outside. simpl. rewrite Hres. simpl. reflexivity.
    + done.
    + done.
    + simpl. rewrite Hes2, Hes1. by rewrite <- !app_assoc.
    + repeat apply Forall_app_2; try done. by repeat constructor.
Qed.

(** *** Request sources *)

(** Symbolic execution of a monadic program, one stuck term at a time. *)
Ltac exec_step :=
  match goal with
  | |- context [match mime_ParseMediaType ?x with (_, _) => _ end] =>
      destruct (mime_ParseMediaType x) as [? [?|]] eqn:?
  | H : ?m !! ?p = _ |- context [?m !! ?p] => rewrite H
  | |- context [<[?p := _]> _ !! ?p] => rewrite lookup_insert_eq
  | |- context [match ?x with (_, _) => _ end] => destruct x eqn:?
  | |- context [decide ?P] => destruct (decide P)
  | |- context [match w ?c with _ => _ end] => destruct (w c) as [[]|]
  | |- context [match Route_Validate ?r with _ => _ end] => destruct (Route_Validate r) eqn:?
  | |- context [match ?o with ReadDone _ => _ | _ => _ end] => destruct o
  end.

Ltac exec :=
  unfold setCallPayload, write_Payload;
  unfold bind, ret, emit, emits, outside, load_route, store_route, load_fn, store_fn,
    deref, panic;
  repeat (simpl; exec_step); simpl.

(** Run the program of a goal [exists res s1, prog = Ret res s1 /\ Q res s1],
    keeping [Q] out of the way. *)
Ltac exec_post :=
  match goal with
  | |- ex (fun res => ex (fun s1 => ?prog = _ /\ @?Q res s1)) =>
      let Post := fresh "Post" in
      let HPost := fresh "HPost" in
      cut (exists res s1, prog = Ret res s1 /\ Q res s1); [exact (fun x => x)|];
      remember Q as Post eqn:HPost;
      exec; try discriminate;
      eexists _, _; (split; [reflexivity|]); subst Post; simpl
  end.

Lemma Route_set_Format_same (r : Route) : Route_set_Format (Route_Format r) r = r.
Proof. by destruct r. Qed.

Lemma buildConfig_format (app : App) (r : Route) :
  buildConfig app r !! "FN_FORMAT" = Some (Route_Format r).
Proof.
  unfold buildConfig. case_decide; by simplify_map_eq.
Qed.


Lemma Fn_set_Format_same (f : Fn) : Fn_set_Format (Fn_Format f) f = f.
Proof. by destruct f. Qed.

Lemma buildTriggerConfig_format (app : App) (f : Fn) (trigger : Trigger) :
  buildTriggerConfig app f trigger !! "FN_FORMAT" = Some (Fn_Format f).
Proof. unfold buildTriggerConfig. by simplify_map_eq. Qed.

Ltac use_payload_race :=
  match goal with
  | Hrace : payload_race _ _ ?w0 = (?o, ?w1) |- _ =>
      eexists _, o, w0, w1; split; [exact Hrace|]; split; [reflexivity|]
  end.

(** One run of [FromRequest] on a route that is there. *)
Lemma FromRequest_exec (app : App) (p : N) (req : Request) (ctx : Ctx) (c : call)
    (s : State) (r : Route) :
  routes s !! p = Some r ->
  let det := ce_detected req in
  let fmt := chosen_format det (Route_Format r) in
  let r' := Route_set_Format fmt r in
  let c1 := if det then set_IsCloudEvent true c else c in
  exists res s1,
    FromRequest app p req ctx c s = Ret res s1 /\
    routes s1 = <[p := r']> (routes s) /\
    fns s1 = fns s /\
    match Route_Validate r' with
    | Some e => res = (c1, Some e)
    | None =>
        exists m o w0 w1,
          payload_race ctx (Req_Body req) w0 = (o, w1) /\
          res = (set_call_Call (Some m) c1, payload_error ctx o) /\
          Format m = fmt /\ Config_ m !! "FN_FORMAT" = Some fmt
    end.
Proof.
  intros Hr det fmt r' c1.
  subst det fmt r' c1. unfold FromRequest, ce_detected, chosen_format.
  exec_post.
  all: repeat match goal with
       | Hp : mime_ParseMediaType _ = _ |- _ => rewrite Hp; clear Hp
       end; simpl.
  all: rewrite ?bool_decide_eq_true_2, ?bool_decide_eq_false_2 by done; simpl.
  all: repeat case_decide; try done.
  all: rewrite ?Route_set_Format_same in *.
  all: (split; [first [reflexivity | by rewrite insert_id] | split; [done|]]).
  all: repeat match goal with
       | Hv : Route_Validate _ = _ |- _ => rewrite Hv; clear Hv
       end; try done.
  all: use_payload_race.
  all: simpl; by rewrite buildConfig_format.
Qed.

(** One run of [FromHTTPTriggerRequest] on a function that is there. *)
Lemma FromHTTPTriggerRequest_exec (app : App) (p : N) (trigger : Trigger) (req : Request)
    (ctx : Ctx) (c : call) (s : State) (f : Fn) :
  fns s !! p = Some f ->
  let det := ce_detected req in
  let fmt := chosen_format det (Fn_Format f) in
  let f' := Fn_set_Format fmt f in
  let c1 := if det then set_IsCloudEvent true c else c in
  exists res s1,
    FromHTTPTriggerRequest app p trigger req ctx c s = Ret res s1 /\
    fns s1 = <[p := f']> (fns s) /\
    routes s1 = routes s /\
    exists m o w0 w1,
      payload_race ctx (Req_Body req) w0 = (o, w1) /\
      res = (set_call_Call (Some m) c1, payload_error ctx o) /\
      Format m = fmt /\ Config_ m !! "FN_FORMAT" = Some fmt.
Proof.
  intros Hf det fmt f' c1.
  subst det fmt f' c1. unfold FromHTTPTriggerRequest, ce_detected, chosen_format.
  exec_post.
  all: repeat match goal with
       | Hp : mime_ParseMediaType _ = _ |- _ => rewrite Hp; clear Hp
       end; simpl.
  all: rewrite ?bool_decide_eq_true_2, ?bool_decide_eq_false_2 by done; simpl.
  all: repeat case_decide; try done.
  all: rewrite ?Fn_set_Format_same in *.
  all: (split; [first [reflexivity | by rewrite insert_id] | split; [done|]]).
  all: use_payload_race.
  all: simpl; by rewrite buildTriggerConfig_format.
Qed.

(** C5: in [FromRequest] and in [FromHTTPTriggerRequest], a Content-Type
    that parses to the cloud event media type sets the event flag of the call
    and makes cloudevent the format of the source, of the call's model and
    of its config; any other Content-Type, and one that does not parse,
    leaves the flag as it was, and the format is the one the source declares,
    or the default when that is empty.  The error returned is that of the
    validation of the route or that of the payload, never one of the
    Content-Type. *)
Theorem content_type_sniffing (app : App) (p q : N) (trigger : Trigger) (req : Request)
    (ctx : Ctx) (c : call) (s : State) (r : Route) (f : Fn) :
  routes s !! p = Some r ->
  fns s !! q = Some f ->
  let det := ce_detected req in
  (exists c' err s' r',
     FromRequest app p req ctx c s = Ret (c', err) s' /\
     IsCloudEvent c' = (if det then true else IsCloudEvent c) /\
     routes s' !! p = Some r' /\
     Route_Format r' = chosen_format det (Route_Format r) /\
     match Route_Validate r' with
     | Some e => err = Some e /\ call_Call c' = call_Call c
     | None =>
         exists m o w0 w1,
           payload_race ctx (Req_Body req) w0 = (o, w1) /\
           err = payload_error ctx o /\
           call_Call c' = Some m /\
           Format m = chosen_format det (Route_Format r) /\
           Config_ m !! "FN_FORMAT" = Some (chosen_format det (Route_Format r))
     end) /\
  (exists c' err s' f' m o w0 w1,
     FromHTTPTriggerRequest app q trigger req ctx c s = Ret (c', err) s' /\
     IsCloudEvent c' = (if det then true else IsCloudEvent c) /\
     fns s' !! q = Some f' /\
     Fn_Format f' = chosen_format det (Fn_Format f) /\
     payload_race ctx (Req_Body req) w0 = (o, w1) /\
     err = payload_error ctx o /\
     call_Call c' = Some m /\
     Format m = chosen_format det (Fn_Format f) /\
     Config_ m !! "FN_FORMAT" = Some (chosen_format det (Fn_Format f))).
Proof.
  intros Hr Hf det. split.
  - destruct (FromRequest_exec app p req ctx c s r Hr) as ([c' err] & s' & Hrun & Hroutes & _ & Hres).
    fold det in Hroutes, Hres.
    exists c', err, s', (Route_set_Format (chosen_format det (Route_Format r)) r).
    split; [done|].
    assert (IsCloudEvent c' = (if det then true else IsCloudEvent c) /\
            match Route_Validate (Route_set_Format (chosen_format det (Route_Format r)) r) with
            | Some e => err = Some e /\ call_Call c' = call_Call c
            | None =>
                exists m o w0 w1,
                  payload_race ctx (Req_Body req) w0 = (o, w1) /\
                  err = payload_error ctx o /\
                  call_Call c' = Some m /\
                  Format m = chosen_format det (Route_Format r) /\
                  Config_ m !! "FN_FORMAT" = Some (chosen_format det (Route_Format r))
            end) as [Hflag Hrest].
    { destruct (Route_Validate _) as [e|].
      - injection Hres as -> ->. by destruct det.
      - destruct Hres as (m & o & w0 & w1 & Hrace & [= -> ->] & Hfmt & Hconf).
        split; [by destruct det|]. by exists m, o, w0, w1. }
    split; [done|]. split; [by rewrite Hroutes, lookup_insert_eq|].
    split; [by destruct r|done].
  - destruct (FromHTTPTriggerRequest_exec app q trigger req ctx c s f Hf)
      as ([c' err] & s' & Hrun & Hfns & _ & m & o & w0 & w1 & Hrace & [= -> ->] & Hfmt & Hconf).
    fold det in Hfns, Hfmt, Hconf.
    exists (set_call_Call (Some m) (if det then set_IsCloudEvent true c else c)),
      (payload_error ctx o), s', (Fn_set_Format (chosen_format det (Fn_Format f)) f), m, o, w0, w1.
    split; [done|]. split; [by destruct det|].
    split; [by rewrite Hfns, lookup_insert_eq|].
    split; [by destruct f|done].
Qed.

(** C10: [FromRequest] writes to the route, and [FromHTTPTriggerRequest]
    to the function, that the caller passed in: after either has run,
    whatever it returned, the object holds the chosen format, so a caller's
    object whose format was empty, or was not cloudevent when a cloud event
    came in, is no longer what it was. *)
Theorem source_format_overwritten (app : App) (p q : N) (trigger : Trigger) (req : Request)
    (ctx : Ctx) (c : call) (s : State) (r : Route) (f : Fn) :
  routes s !! p = Some r ->
  fns s !! q = Some f ->
  let det := ce_detected req in
  (exists res s',
     FromRequest app p req ctx c s = Ret res s' /\
     routes s' !! p = Some (Route_set_Format (chosen_format det (Route_Format r)) r) /\
     (det = true -> routes s' !! p = Some (Route_set_Format FormatCloudEvent r)) /\
     (det = false -> Route_Format r = "" ->
        routes s' !! p = Some (Route_set_Format FormatDefault r)) /\
     (det = true \/ Route_Format r = "" -> Route_Format r <> FormatCloudEvent ->
        routes s' !! p <> routes s !! p)) /\
  (exists res s',
     FromHTTPTriggerRequest app q trigger req ctx c s = Ret res s' /\
     fns s' !! q = Some (Fn_set_Format (chosen_format det (Fn_Format f)) f) /\
     (det = true -> fns s' !! q = Some (Fn_set_Format FormatCloudEvent f)) /\
     (det = false -> Fn_Format f = "" ->
        fns s' !! q = Some (Fn_set_Format FormatDefault f)) /\
     (det = true \/ Fn_Format f = "" -> Fn_Format f <> FormatCloudEvent ->
        fns s' !! q <> fns s !! q)).
Proof.
  intros Hr Hf det. split.
  - destruct (FromRequest_exec app p req ctx c s r Hr) as (res & s' & Hrun & Hroutes & _).
    fold det in Hroutes.
    exists res, s'. split; [done|].
    rewrite Hroutes, lookup_insert_eq, Hr.
    split; [done|]. split; [by intros ->|]. split.
    + intros -> He. unfold chosen_format. by rewrite decide_True.
    + intros Hcase Hne [= Heq]. apply (f_equal Route_Format) in Heq.
      destruct r as [? ? ? fmt0 ? ? ? ? ? ? ? ?]; simpl in *.
      unfold chosen_format in Heq. destruct det.
      * by subst.
      * destruct Hcase as [|He]; [done|]. by rewrite decide_True in Heq by done; subst.
  - destruct (FromHTTPTriggerRequest_exec app q trigger req ctx c s f Hf)
      as (res & s' & Hrun & Hfns & _).
    fold det in Hfns.
    exists res, s'. split; [done|].
    rewrite Hfns, lookup_insert_eq, Hf.
    split; [done|]. split; [by intros ->|]. split.
    + intros -> He. unfold chosen_format. by rewrite decide_True.
    + intros Hcase Hne [= Heq]. apply (f_equal Fn_Format) in Heq.
      destruct f as [? ? fmt0 ? ? ? ? ?]; simpl in *.
      unfold chosen_format in Heq. destruct det.
      * by subst.
      * destruct Hcase as [|He]; [done|]. by rewrite decide_True in Heq by done; subst.
Qed.

(** ** Further properties of the lifecycle *)

Lemma started_fields (now : Time) (m : models_Call) :
  Status (started now m) = "running" /\ StartedAt (started now m) = now /\
  CompletedAt (started now m) = CompletedAt m /\ Error_ (started now m) = Error_ m /\
  Stats (started now m) = Stats m /\ same_parameters m (started now m).
Proof. unfold started, same_parameters. by destruct m. Qed.

(** One run of [Start] on a call that is not async. *)
Lemma call_Start_sync_exec (ctx : Ctx) (c : call) (s : State) (m : models_Call)
    (t : callTrigger) (now : Time) (w1 w2 : W) (berr : option error) :
  ctx_Err ctx = None -> call_Call c = Some m -> ct c = Some t ->
  Type_ m <> TypeAsync ->
  time_Now (world s) = (now, w1) ->
  fireBeforeCall t ctx (started now m) w1 = (berr, w2) ->
  call_Start ctx c s =
    Ret (set_call_Call (Some (started now m)) c,
         match berr with
         | Some e => Some (fmt_Errorf_v "BeforeCall: " e)
         | None => None
         end)
        {| world := w2;
           trace := (trace s ++ wait_header c (started now m)
                       ++ [FireBeforeCall (started now m)])%list;
           routes := routes s; fns := fns s |}.
Proof.
  intros Hctx Hm Ht Hsync Hnow Hbefore.
  assert (Type_ (started now m) <> TypeAsync) as Hsync' by (by destruct m).
  unfold call_Start, wait_header. rewrite Hctx.
  unfold bind, deref, ret, emit, emits, outside. rewrite Hm. simpl. rewrite Hnow. simpl.
  fold (started now m).
  destruct (isLB c); simpl.
  - rewrite decide_False by done. simpl. rewrite Ht. simpl. rewrite Hbefore.
    by destruct berr.
  - destruct (w c) as [[rw|?|?]|]; simpl; rewrite decide_False by done; simpl;
      rewrite Ht; simpl; rewrite Hbefore; destruct berr; simpl;
      by rewrite <- ?app_assoc.
Qed.

(** One run of [Start] on an async call. *)
Lemma call_Start_async_exec (ctx : Ctx) (c : call) (s : State) (m : models_Call)
    (h : CallHandler) (now : Time) (w1 w2 : W) (herr : option error) :
  ctx_Err ctx = None -> call_Call c = Some m -> handler c = Some h ->
  Type_ m = TypeAsync ->
  time_Now (world s) = (now, w1) ->
  handler_Start h ctx (started now m) w1 = (herr, w2) ->
  call_Start ctx c s =
    match herr with
    | Some e =>
        Ret (set_call_Call (Some (started now m)) c, Some e)
            {| world := w2;
               trace := (trace s ++ wait_header c (started now m)
                           ++ [HandlerStart (started now m)])%list;
               routes := routes s; fns := fns s |}
    | None =>
        match ct c with
        | None =>
            Panicked nil_deref
              {| world := w2;
                 trace := (trace s ++ wait_header c (started now m)
                             ++ [HandlerStart (started now m)])%list;
                 routes := routes s; fns := fns s |}
        | Some t =>
            let '(berr, w3) := fireBeforeCall t ctx (started now m) w2 in
            Ret (set_call_Call (Some (started now m)) c,
                 match berr with
                 | Some e => Some (fmt_Errorf_v "BeforeCall: " e)
                 | None => None
                 end)
                {| world := w3;
                   trace := (trace s ++ wait_header c (started now m)
                               ++ [HandlerStart (started now m);
                                   FireBeforeCall (started now m)])%list;
                   routes := routes s; fns := fns s |}
        end
    end.
Proof.
  intros Hctx Hm Hh Hasync Hnow Hstart.
  assert (Type_ (started now m) = TypeAsync) as Hasync' by (by destruct m).
  unfold call_Start, wait_header. rewrite Hctx.
  unfold bind, deref, ret, emit, emits, outside, panic. rewrite Hm. simpl. rewrite Hnow. simpl.
  fold (started now m).
  destruct (isLB c); simpl.
  - rewrite decide_True by done. simpl. rewrite Hh. simpl. rewrite Hstart.
    destruct herr; simpl; [done|].
    destruct (ct c) as [t|]; simpl; [|done].
    destruct (fireBeforeCall t ctx (started now m) w2) as [[e|] w3]; simpl;
      by rewrite <- ?app_assoc.
  - destruct (w c) as [[rw|?|?]|]; simpl; rewrite decide_True by done; simpl;
      rewrite Hh; simpl; rewrite Hstart; destruct herr; simpl;
      rewrite <- ?app_assoc; try done;
      destruct (ct c) as [t|]; simpl; try done;
      destruct (fireBeforeCall t ctx (started now m) w2) as [[e|] w3]; simpl;
      by rewrite <- ?app_assoc.
Qed.

(** X1: a [Start] that gets past the context check and returns has marked
    the call: status running and start time now, whatever the hooks
    answered, with every other field of the model and of the call as it
    was. *)
Theorem Start_marks_running (ctx : Ctx) (c c' : call) (s s' : State) (m : models_Call)
    (err : option error) :
  ctx_Err ctx = None -> call_Call c = Some m ->
  call_Start ctx c s = Ret (c', err) s' ->
  exists m',
    c' = set_call_Call (Some m') c /\
    Status m' = "running" /\
    StartedAt m' = fst (time_Now (world s)) /\
    CompletedAt m' = CompletedAt m /\ Error_ m' = Error_ m /\ Stats m' = Stats m /\
    same_parameters m m' /\
    routes s' = routes s /\ fns s' = fns s.
Proof.
  intros Hctx Hm Hrun.
  destruct (time_Now (world s)) as [now w1] eqn:Hnow.
  exists (started now m).
  destruct (started_fields now m) as (Hst & Hat & Hco & Her & Hss & Hpar).
  cut (c' = set_call_Call (Some (started now m)) c /\ routes s' = routes s /\ fns s' = fns s).
  { intros (-> & Hr & Hf). simpl. repeat split; try done; apply Hpar. }
  revert Hrun. unfold call_Start. rewrite Hctx.
  unfold bind, deref, ret, emit, emits, outside, panic. rewrite Hm. simpl. rewrite Hnow. simpl.
  fold (started now m).
  repeat (simpl; match goal with
    | |- Ret _ _ = Ret _ _ -> _ => by intros [= <- <- <-]
    | |- Panicked _ _ = Ret _ _ -> _ => discriminate
    | |- context [isLB c] => destruct (isLB c)
    | |- context [match w c with _ => _ end] => destruct (w c) as [[]|]
    | |- context [decide ?P] => destruct (decide P)
    | |- context [match handler c with _ => _ end] => destruct (handler c)
    | |- context [match ct c with _ => _ end] => destruct (ct c)
    | |- context [match ?f ?a ?b ?c0 with (_, _) => _ end] =>
        destruct (f a b c0) as [[?|] ?]
    end).
Qed.

(** X2: on a call that is not async, [Start] leaves the persistence
    collaborator alone: what goes on record is the wait header, if any, and
    then [BeforeCall], called with the model already marked running; a
    failure of [BeforeCall] comes back under the prefix of the hook. *)
Theorem Start_sync_skips_persistence (ctx : Ctx) (c : call) (s : State) (m : models_Call)
    (t : callTrigger) :
  ctx_Err ctx = None -> call_Call c = Some m -> ct c = Some t ->
  Type_ m <> TypeAsync ->
  exists c' err s' m' berr,
    call_Start ctx c s = Ret (c', err) s' /\
    call_Call c' = Some m' /\ Status m' = "running" /\
    trace s' = (trace s ++ wait_header c m' ++ [FireBeforeCall m'])%list /\
    berr = fst (fireBeforeCall t ctx m' (snd (time_Now (world s)))) /\
    err = match berr with
          | Some e => Some (errorString ("BeforeCall: " +:+ Error e))
          | None => None
          end.
Proof.
  intros Hctx Hm Ht Hsync.
  destruct (time_Now (world s)) as [now w1] eqn:Hnow.
  destruct (fireBeforeCall t ctx (started now m) w1) as [berr w2] eqn:Hbefore.
  eexists _, _, _, (started now m), berr.
  split; [by eapply call_Start_sync_exec|].
  simpl. rewrite Hbefore. by destruct m.
Qed.

(** X3: on an async call whose reservation fails, [Start] hands back the
    error of the persistence [Start] hook as it is, and [BeforeCall] does not
    fire; the call is nonetheless marked running. *)
Theorem Start_async_reservation_failure (ctx : Ctx) (c : call) (s : State)
    (m : models_Call) (h : CallHandler) (e : error) (w2 : W) :
  ctx_Err ctx = None -> call_Call c = Some m -> handler c = Some h ->
  Type_ m = TypeAsync ->
  (let '(now, w1) := time_Now (world s) in
   handler_Start h ctx (started now m) w1 = (Some e, w2)) ->
  exists c' s' m',
    call_Start ctx c s = Ret (c', Some e) s' /\
    call_Call c' = Some m' /\ Status m' = "running" /\
    trace s' = (trace s ++ wait_header c m' ++ [HandlerStart m'])%list /\
    world s' = w2.
Proof.
  intros Hctx Hm Hh Hasync Hstart.
  destruct (time_Now (world s)) as [now w1] eqn:Hnow.
  eexists _, _, (started now m).
  split; [by rewrite (call_Start_async_exec _ _ _ _ _ _ _ _ _ Hctx Hm Hh Hasync Hnow Hstart)|].
  simpl. by destruct m.
Qed.

(** X4: on an async call whose reservation succeeds, the persistence
    [Start] hook is called first and [BeforeCall] after it, both with the
    model marked running. *)
Theorem Start_async_hook_order (ctx : Ctx) (c : call) (s : State)
    (m : models_Call) (h : CallHandler) (t : callTrigger) (w2 : W) :
  ctx_Err ctx = None -> call_Call c = Some m -> handler c = Some h -> ct c = Some t ->
  Type_ m = TypeAsync ->
  (let '(now, w1) := time_Now (world s) in
   handler_Start h ctx (started now m) w1 = (None, w2)) ->
  exists c' err s' m' berr,
    call_Start ctx c s = Ret (c', err) s' /\
    call_Call c' = Some m' /\
    trace s' = (trace s ++ wait_header c m' ++ [HandlerStart m'; FireBeforeCall m'])%list /\
    berr = fst (fireBeforeCall t ctx m' w2) /\
    err = match berr with
          | Some e => Some (errorString ("BeforeCall: " +:+ Error e))
          | None => None
          end.
Proof.
  intros Hctx Hm Hh Ht Hasync Hstart.
  destruct (time_Now (world s)) as [now w1] eqn:Hnow.
  pose proof (call_Start_async_exec _ _ _ _ _ _ _ _ _ Hctx Hm Hh Hasync Hnow Hstart) as Hrun.
  rewrite Ht in Hrun.
  destruct (fireBeforeCall t ctx (started now m) w2) as [berr w3] eqn:Hbefore.
  eexists _, _, _, (started now m), berr.
  split; [exact Hrun|]. simpl. by rewrite Hbefore.
Qed.

(** X5: [End] writes the completion time, the status, the error text and
    the statistics, and nothing else: the execution parameters and the start
    time of the model, and the other fields of the call, are as they were;
    the error text changes only for an error other than the deadline. *)
Theorem End_keeps_parameters (ctx : Ctx) (errIn : option error) (c : call) (s : State)
    (m : models_Call) (h : CallHandler) (se : N) (t : callTrigger) :
  call_Call c = Some m -> handler c = Some h -> stderr c = Some se -> ct c = Some t ->
  exists m' r s',
    call_End ctx errIn c s = Ret (set_call_Call (Some m') c, r) s' /\
    same_parameters m m' /\
    StartedAt m' = StartedAt m /\
    ((errIn = None \/ errIn = Some DeadlineExceeded) -> Error_ m' = Error_ m) /\
    routes s' = routes s /\ fns s' = fns s.
Proof.
  intros Hm Hh Hse Ht.
  destruct (time_Now (world s)) as [now w1] eqn:Hnow.
  destruct (handler_Finish h ctx (ended errIn now m) (Some se)
              (bool_decide (Type_ (ended errIn now m) = TypeAsync)) w1) as [ferr w2] eqn:Hfin.
  destruct (fireAfterCall t ctx (ended errIn now m) w2) as [aerr w3] eqn:Haft.
  eexists (ended errIn now m), _, _.
  split; [by eapply call_End_exec|]. simpl.
  split; [|split; [|split]]; [| |intros [->| ->]|done].
  - unfold same_parameters, ended, record_outcome.
    destruct m, errIn as [e|]; simpl; [destruct (decide (e = DeadlineExceeded))|]; by simpl.
  - unfold ended, record_outcome.
    destruct m, errIn as [e|]; simpl; [destruct (decide (e = DeadlineExceeded))|]; by simpl.
  - by destruct m.
  - by destruct m.
Qed.

(** X6: the status that [End] records tells the three outcomes apart:
    success exactly for no error, timeout exactly for
    [context.DeadlineExceeded] itself, error for everything else, another
    error with the text of the deadline included. *)
Theorem End_status_tells_outcome (ctx : Ctx) (errIn : option error) (c : call) (s : State)
    (m : models_Call) (h : CallHandler) (se : N) (t : callTrigger) :
  call_Call c = Some m -> handler c = Some h -> stderr c = Some se -> ct c = Some t ->
  exists c' m' r s',
    call_End ctx errIn c s = Ret (c', r) s' /\
    call_Call c' = Some m' /\
    (Status m' = "success" <-> errIn = None) /\
    (Status m' = "timeout" <-> errIn = Some DeadlineExceeded) /\
    (Status m' = "error" <-> exists e, errIn = Some e /\ e <> DeadlineExceeded).
Proof.
  intros Hm Hh Hse Ht.
  destruct (time_Now (world s)) as [now w1] eqn:Hnow.
  destruct (handler_Finish h ctx (ended errIn now m) (Some se)
              (bool_decide (Type_ (ended errIn now m) = TypeAsync)) w1) as [ferr w2] eqn:Hfin.
  destruct (fireAfterCall t ctx (ended errIn now m) w2) as [aerr w3] eqn:Haft.
  eexists _, (ended errIn now m), _, _.
  split; [by eapply call_End_exec|]. split; [done|].
  destruct (ended_fields errIn now m) as (_ & -> & _).
  unfold record_outcome.
  destruct errIn as [e|]; [destruct (decide (e = DeadlineExceeded)) as [->|Hne]|];
    destruct m; simpl; split_and!; split; try done;
    first [ by intros (e' & [= <-] & ?) | by intros (e' & [=] & ?) | by intros [= ->]
          | by intros _; eexists ].
Qed.

(** ** Further properties of the assembly *)

Lemma hook_free_admission (a : agent) (ctx : Ctx) (m : models_Call) (c : call) :
  hook_free (admission a ctx m c).
Proof. unfold admission. cbv zeta. repeat hook_free_step. Qed.

(** X7: [GetCall] fires no lifecycle hook, however it ends, when its
    configurators fire none. *)
Theorem GetCall_fires_no_hook (a : agent) (ctx : Ctx) (opts : list CallOpt) :
  Forall (fun o => forall ctx c, hook_free (o ctx c)) opts ->
  hook_free (GetCall a ctx opts).
Proof.
  intros Hopts. unfold GetCall.
  apply hook_free_bind; [by apply hook_free_apply_opts|].
  intros [c [e|]]; [apply hook_free_ret|].
  destruct (call_Call c) as [m|]; [|apply hook_free_ret].
  apply hook_free_bind; [apply hook_free_override|].
  intros [c1 [e|]]; [apply hook_free_ret|].
  apply hook_free_bind; [apply hook_free_deref|].
  intros m1. apply hook_free_admission.
Qed.

(** X8: an error of the overrider ends the assembly there: [GetCall] returns
    that error and no call, and the resources are never asked. *)
Theorem GetCall_overrider_error (a : agent) (ctx : Ctx) (opts : list CallOpt)
    (s s1 : State) (c : call) (m m' : models_Call) (ov : CallOverrider)
    (ext : gmap string string) (e : error) (w2 : W) :
  apply_opts ctx opts zero_call s = Ret (c, None) s1 ->
  call_Call c = Some m ->
  callOverrider a = Some ov ->
  ov m (extensions c) (world s1) = ((m', ext, Some e), w2) ->
  exists s2,
    GetCall a ctx opts s = Ret (None, Some e) s2 /\
    world s2 = w2 /\
    trace s2 = (trace s1 ++ [CallOverride m (extensions c)])%list.
Proof.
  intros Happly Hm Hov Hrun.
  eexists. split; [|split].
  - unfold GetCall, bind. rewrite Happly. simpl. rewrite Hm.
    unfold override, bind, emit, emits, outside. rewrite Hov. simpl. rewrite Hrun. simpl.
    reflexivity.
  - done.
  - done.
Qed.

(** X9: a call that is admitted comes back wired to the agent: its handler
    is the agent's data access, its trigger the agent, its log stream the one
    [setupLogger] made, and its writer the one a configurator set or, when
    none did, the log stream; model and extensions are those left by
    [setupCtx]. *)
Theorem GetCall_admitted (a : agent) (ctx : Ctx) (opts : list CallOpt)
    (s s1 s2 : State) (c c1 c2 : call) (m m1 : models_Call) (w3 w4 w5 : W) (se : N) :
  apply_opts ctx opts zero_call s = Ret (c, None) s1 ->
  call_Call c = Some m ->
  override a m c s1 = Ret (c1, None) s2 ->
  call_Call c1 = Some m1 ->
  IsResourcePossible (resources a) (uint64 (Memory m1 + uint64 (TmpFsSize m1)))
    (uint64 (CPUs m1)) (bool_decide (Type_ m1 = TypeAsync)) (world s2) = (true, w3) ->
  setupCtx c1 w3 = (c2, w4) ->
  setupLogger ctx (cfg_MaxLogSize a) (call_Call c2) w4 = (se, w5) ->
  exists c' s',
    GetCall a ctx opts s = Ret (Some c', None) s' /\
    handler c' = da a /\
    ct c' = Some (agent_ct a) /\
    stderr c' = Some se /\
    w c' = match w c2 with
           | Some wr => Some wr
           | None => Some (StderrWriter se)
           end /\
    call_Call c' = call_Call c2 /\
    extensions c' = extensions c2 /\
    IsCloudEvent c' = IsCloudEvent c2 /\
    world s' = w5 /\
    trace s' = (trace s2 ++ [AdmissionCheck (uint64 (Memory m1 + uint64 (TmpFsSize m1)))
                               (uint64 (CPUs m1)) (bool_decide (Type_ m1 = TypeAsync))])%list.
Proof.
  intros Happly Hm Hover Hm1 Hres Hctx Hlog.
  eexists _, _. split.
  - unfold GetCall, bind. rewrite Happly. simpl. rewrite Hm.
    unfold bind. rewrite Hover. simpl. unfold deref. rewrite Hm1. unfold ret at 1.
    unfold admission, bind, emit, emits, outside. simpl. rewrite Hres. simpl.
    rewrite Hctx. simpl. rewrite Hlog. simpl. reflexivity.
  - simpl. destruct (w c2) as [wr|] eqn:Hw; simpl; by repeat split.
Qed.

(** X10: a source configurator that comes after another replaces the model
    the first one built; [FromModel] in last place decides the model, with no
    error for the mix. *)
Theorem last_source_wins (ctx : Ctx) (before : list CallOpt) (mCall : models_Call)
    (c1 : call) (s s1 : State) :
  applied_in_order ctx before zero_call s c1 s1 ->
  apply_opts ctx (before ++ [FromModel mCall]) zero_call s =
  Ret (set_call_Call (Some mCall) c1, None) s1.
Proof.
  intros Hbefore. by rewrite (apply_opts_app _ _ _ _ _ _ _ Hbefore).
Qed.

(** X11: the demand is a 64-bit sum: when memory and tmpfs size together
    reach 2^64 the resources are asked about the sum less 2^64, which is
    less than the memory of the call alone. *)
Theorem admission_demand_wraps (a : agent) (ctx : Ctx) (m : models_Call) (c : call)
    (s : State) :
  (Memory m < 2 ^ 64)%N -> (TmpFsSize m < 2 ^ 64)%N ->
  (2 ^ 64 <= Memory m + TmpFsSize m)%N ->
  exists res s' later demand,
    admission a ctx m c s = Ret res s' /\
    trace s' = (trace s ++ AdmissionCheck demand (uint64 (CPUs m))
                             (bool_decide (Type_ m = TypeAsync)) :: later)%list /\
    demand = (Memory m + TmpFsSize m - 2 ^ 64)%N /\
    (demand < Memory m)%N.
Proof.
  intros Hmem Htmp Hsum.
  assert (uint64 (Memory m + uint64 (TmpFsSize m)) = (Memory m + TmpFsSize m - 2 ^ 64)%N) as Hwrap.
  { unfold uint64. rewrite (N.mod_small (TmpFsSize m)) by done.
    symmetry. apply (N.mod_unique _ _ 1); lia. }
  unfold admission, bind, emit, emits, outside, ret. simpl. rewrite Hwrap.
  destruct (IsResourcePossible _ _ _ _ _) as [[|] w3]; simpl.
  - destruct (setupCtx c w3) as [c2 w4]. simpl.
    destruct (setupLogger _ _ _ _) as [se w5]. simpl.
    eexists _, _, [], _. split; [reflexivity|]. simpl. split; [done|]. split; [done|lia].
  - eexists _, _, [], _. split; [reflexivity|]. simpl. split; [done|]. split; [done|lia].
Qed.

(** ** Further properties of the request sources *)

Ltac use_equations :=
  repeat match goal with
         | Hq : _ = (_, _) |- _ => rewrite Hq
         end.

(** One run of [FromRequest], with all it leaves behind. *)
Lemma FromRequest_run (app : App) (p : N) (req : Request) (ctx : Ctx) (c : call)
    (s : State) (r : Route) :
  routes s !! p = Some r ->
  let r' := Route_set_Format (chosen_format (ce_detected req) (Route_Format r)) r in
  let id := fst (id_New (world s)) in
  let w1 := snd (id_New (world s)) in
  let now := fst (time_Now w1) in
  let o := fst (payload_race ctx (Req_Body req) (snd (time_Now w1))) in
  exists res s',
    FromRequest app p req ctx c s = Ret res s' /\
    routes s' = <[p := r']> (routes s) /\
    fns s' = fns s /\
    trace s' = (trace s ++ sniff_log req
                  ++ match w c with
                     | Some (ResponseWriter rw) =>
                         HeaderAdd rw "FN_CALL_ID" id :: route_header_adds rw r'
                     | _ => []
                     end)%list /\
    match Route_Validate r' with
    | Some e => res = (flagged req c, Some e) /\ world s' = w1
    | None =>
        world s' = snd (payload_race ctx (Req_Body req) (snd (time_Now w1))) /\
        snd res = payload_error ctx o /\
        exists m,
          fst res = set_call_Call (Some m) (flagged req c) /\
          (ID m = id /\ Path m = Route_Path r /\ Image m = Route_Image r /\
           Type_ m = Route_Type r /\ Format m = Route_Format r' /\
           Priority m = Some 0%Z /\ Timeout m = Route_Timeout r /\
           IdleTimeout m = Route_IdleTimeout r /\ TmpFsSize m = Route_TmpFsSize r /\
           Memory m = Route_Memory r /\ CPUs m = Route_CPUs r) /\
          (Config_ m = buildConfig app r' /\
           Annotations_ m = MergeChange (App_Annotations app) (Route_Annotations r) /\
           Headers m = Req_Header req /\ CreatedAt m = now /\ URL m = reqURL req /\
           Method m = Req_Method req /\ AppID m = App_ID app /\ FnID m = "" /\
           TriggerID m = "" /\ SyslogURL m = syslogURL_of app) /\
          (Payload m = match o with ReadDone pl => pl | _ => "" end /\
           StartedAt m = 0%Z /\ CompletedAt m = 0%Z /\ Status m = "" /\
           Error_ m = "" /\ Stats m = [])
    end.
Proof.
  intros Hr r' id w1 now o.
  subst r' id w1 now o. unfold FromRequest, flagged, ce_detected, chosen_format, sniff_log.
  exec_post.
  all: use_equations; simpl.
  all: rewrite ?bool_decide_eq_true_2, ?bool_decide_eq_false_2 by done; simpl.
  all: repeat case_decide; try done.
  all: rewrite ?Route_set_Format_same in *.
  all: (split; [first [reflexivity | by rewrite insert_id] | split; [done|]]).
  all: (split; [by rewrite <- ?app_assoc, ?app_nil_r|]).
  all: repeat match goal with
       | Hv : Route_Validate _ = _ |- _ => rewrite Hv; clear Hv
       end.
  all: use_equations; simpl.
  all: first [ done | by split
             | split; [done|]; split; [done|];
               eexists; split; [reflexivity|]; simpl; by split_and! ].
Qed.

(** One run of [FromHTTPTriggerRequest], with all it leaves behind. *)
Lemma FromHTTPTriggerRequest_run (app : App) (p : N) (trigger : Trigger) (req : Request)
    (ctx : Ctx) (c : call) (s : State) (f : Fn) :
  fns s !! p = Some f ->
  let f' := Fn_set_Format (chosen_format (ce_detected req) (Fn_Format f)) f in
  let id := fst (id_New (world s)) in
  let w1 := snd (id_New (world s)) in
  let now := fst (time_Now w1) in
  let o := fst (payload_race ctx (Req_Body req) (snd (time_Now w1))) in
  exists res s',
    FromHTTPTriggerRequest app p trigger req ctx c s = Ret res s' /\
    fns s' = <[p := f']> (fns s) /\
    routes s' = routes s /\
    trace s' = (trace s ++ sniff_log req
                  ++ match w c with
                     | Some (ResponseWriter rw) => [HeaderAdd rw "FN_CALL_ID" id]
                     | _ => []
                     end)%list /\
    world s' = snd (payload_race ctx (Req_Body req) (snd (time_Now w1))) /\
    snd res = payload_error ctx o /\
    exists m,
      fst res = set_call_Call (Some m) (flagged req c) /\
      (ID m = id /\ Path m = Trigger_Source trigger /\ Image m = Fn_Image f /\
       Type_ m = "sync" /\ Format m = Fn_Format f' /\
       Priority m = Some 0%Z /\ Timeout m = Fn_Timeout f /\
       IdleTimeout m = Fn_IdleTimeout f /\ TmpFsSize m = 0%N /\
       Memory m = Fn_Memory f /\ CPUs m = 0%N) /\
      (Config_ m = buildTriggerConfig app f' trigger /\
       Annotations_ m = MergeChange (MergeChange (App_Annotations app) (Fn_Annotations f))
                                    (Trigger_Annotations trigger) /\
       Headers m = Req_Header req /\ CreatedAt m = now /\ URL m = reqURL req /\
       Method m = Req_Method req /\ AppID m = App_ID app /\ FnID m = Fn_ID f /\
       TriggerID m = Trigger_ID trigger /\ SyslogURL m = syslogURL_of app) /\
      (Payload m = match o with ReadDone pl => pl | _ => "" end /\
       StartedAt m = 0%Z /\ CompletedAt m = 0%Z /\ Status m = "" /\
       Error_ m = "" /\ Stats m = []).
Proof.
  intros Hf f' id w1 now o.
  subst f' id w1 now o.
  unfold FromHTTPTriggerRequest, flagged, ce_detected, chosen_format, sniff_log.
  exec_post.
  all: use_equations; simpl.
  all: rewrite ?bool_decide_eq_true_2, ?bool_decide_eq_false_2 by done; simpl.
  all: repeat case_decide; try done.
  all: rewrite ?Fn_set_Format_same in *.
  all: (split; [first [reflexivity | by rewrite insert_id] | split; [done|]]).
  all: (split; [by rewrite <- ?app_assoc, ?app_nil_r|]).
  all: use_equations; simpl.
  all: split; [done|]; split; [done|];
       eexists; split; [reflexivity|]; simpl; by split_and!.
Qed.

Lemma buildConfig_lookups (app : App) (r : Route) :
  buildConfig app r !! "FN_APP_NAME" = Some (App_Name app) /\
  buildConfig app r !! "FN_PATH" = Some (Route_Path r) /\
  buildConfig app r !! "FN_MEMORY" = Some (Sprintf_d (Route_Memory r)) /\
  buildConfig app r !! "FN_TYPE" = Some (Route_Type r) /\
  buildConfig app r !! "FN_TMPSIZE" = Some (Sprintf_d (Route_TmpFsSize r)).
Proof. unfold buildConfig. case_decide; split_and!; by simplify_map_eq. Qed.

Lemma buildTriggerConfig_lookups (app : App) (f : Fn) (trigger : Trigger) :
  buildTriggerConfig app f trigger !! "FN_APP_NAME" = Some (App_Name app) /\
  buildTriggerConfig app f trigger !! "FN_PATH" = Some (Trigger_Source trigger) /\
  buildTriggerConfig app f trigger !! "FN_MEMORY" = Some (Sprintf_d (Fn_Memory f)) /\
  buildTriggerConfig app f trigger !! "FN_TYPE" = Some "sync" /\
  buildTriggerConfig app f trigger !! "FN_FN_ID" = Some (Fn_ID f).
Proof. unfold buildTriggerConfig. split_and!; by simplify_map_eq. Qed.

(** X12: with an HTTP response as writer, [FromRequest] puts the id of the
    call on the response first and the headers of the route after it, before
    the route is validated and whatever the validation says; the id on the
    response is the id of the model it builds.  With any other writer, or
    none, it writes no header. *)
Theorem FromRequest_call_id_on_response (app : App) (p : N) (req : Request) (ctx : Ctx)
    (c : call) (s : State) (r : Route) :
  routes s !! p = Some r ->
  let r' := Route_set_Format (chosen_format (ce_detected req) (Route_Format r)) r in
  exists c' err s',
    FromRequest app p req ctx c s = Ret (c', err) s' /\
    (forall rw, w c = Some (ResponseWriter rw) ->
       trace s' = (trace s ++ sniff_log req
                     ++ HeaderAdd rw "FN_CALL_ID" (fst (id_New (world s)))
                     :: route_header_adds rw r')%list) /\
    ((forall rw, w c <> Some (ResponseWriter rw)) ->
       trace s' = (trace s ++ sniff_log req)%list) /\
    (Route_Validate r' = None ->
       exists m, call_Call c' = Some m /\ ID m = fst (id_New (world s))).
Proof.
  intros Hr r'.
  destruct (FromRequest_run app p req ctx c s r Hr)
    as ([c' err] & s' & Hrun & _ & _ & Htrace & Hres).
  fold r' in Htrace, Hres.
  exists c', err, s'. split; [exact Hrun|].
  split; [|split].
  - intros rw Hw. by rewrite Htrace, Hw.
  - intros Hw. rewrite Htrace.
    destruct (w c) as [[rw| |]|]; rewrite ?app_nil_r; try done. by destruct (Hw rw).
  - intros Hvalid. rewrite Hvalid in Hres.
    destruct Hres as (_ & _ & m & Hc' & (Hid & _) & _). simpl in Hc'.
    exists m. by rewrite Hc'.
Qed.

(** X13: a route that does not validate stops [FromRequest] early: the
    error of the validation comes back as it is, the model of the call is
    what it was, and of the outside only the id generator has been used: no
    time is taken and no body is read. *)
Theorem FromRequest_invalid_route_stops_early (app : App) (p : N) (req : Request)
    (ctx : Ctx) (c : call) (s : State) (r : Route) (e : error) :
  routes s !! p = Some r ->
  Route_Validate (Route_set_Format (chosen_format (ce_detected req) (Route_Format r)) r)
    = Some e ->
  exists c' s',
    FromRequest app p req ctx c s = Ret (c', Some e) s' /\
    call_Call c' = call_Call c /\
    w c' = w c /\ extensions c' = extensions c /\
    world s' = snd (id_New (world s)).
Proof.
  intros Hr Hinvalid.
  destruct (FromRequest_run app p req ctx c s r Hr)
    as ([c' err] & s' & Hrun & _ & _ & _ & Hres).
  rewrite Hinvalid in Hres. destruct Hres as ([= -> ->] & Hworld).
  eexists _, _. split; [exact Hrun|].
  unfold flagged. by destruct (ce_detected req).
Qed.

(** X14: the model [FromRequest] builds takes its execution parameters from
    the route, and its config says the same as its fields: path, memory,
    type, tmpfs size and format in the config are those of the model. *)
Theorem FromRequest_model_mirrors_route (app : App) (p : N) (req : Request)
    (ctx : Ctx) (c : call) (s : State) (r : Route) :
  routes s !! p = Some r ->
  Route_Validate (Route_set_Format (chosen_format (ce_detected req) (Route_Format r)) r)
    = None ->
  exists c' err s' m,
    FromRequest app p req ctx c s = Ret (c', err) s' /\
    call_Call c' = Some m /\
    (Path m = Route_Path r /\ Image m = Route_Image r /\ Type_ m = Route_Type r /\
     Timeout m = Route_Timeout r /\ IdleTimeout m = Route_IdleTimeout r /\
     TmpFsSize m = Route_TmpFsSize r /\ Memory m = Route_Memory r /\
     CPUs m = Route_CPUs r /\ AppID m = App_ID app /\
     Headers m = Req_Header req /\ Method m = Req_Method req) /\
    (Config_ m !! "FN_PATH" = Some (Path m) /\
     Config_ m !! "FN_MEMORY" = Some (Sprintf_d (Memory m)) /\
     Config_ m !! "FN_TYPE" = Some (Type_ m) /\
     Config_ m !! "FN_TMPSIZE" = Some (Sprintf_d (TmpFsSize m)) /\
     Config_ m !! "FN_FORMAT" = Some (Format m) /\
     Config_ m !! "FN_APP_NAME" = Some (App_Name app)) /\
    (StartedAt m = 0%Z /\ CompletedAt m = 0%Z /\ Status m = "" /\ Stats m = []).
Proof.
  intros Hr Hvalid.
  destruct (FromRequest_run app p req ctx c s r Hr)
    as ([c' err] & s' & Hrun & _ & _ & _ & Hres).
  rewrite Hvalid in Hres.
  destruct Hres as (_ & _ & m & Hc' & Hparams & Hrest & Hlife). simpl in Hc'.
  destruct Hparams as (_ & HPath & HImage & HType & HFormat & _ & HTimeout & HIdle &
                       HTmp & HMem & HCPUs).
  destruct Hrest as (HConf & _ & HHeaders & _ & _ & HMethod & HApp & _).
  destruct Hlife as (_ & HSt & HCo & HStatus & _ & HStats).
  set (r' := Route_set_Format (chosen_format (ce_detected req) (Route_Format r)) r) in *.
  destruct (buildConfig_lookups app r') as (Hn & Hp & Hm & Ht & Hs).
  pose proof (buildConfig_format app r') as Hf.
  exists c', err, s', m. split; [exact Hrun|]. split; [by rewrite Hc'|].
  rewrite HConf, HPath, HMem, HType, HTmp, HFormat.
  split; [by split_and!|]. split; [|by split_and!].
  rewrite Hn, Hp, Hm, Ht, Hs, Hf. subst r'. by destruct r.
Qed.

(** X15: a call from an HTTP trigger is always sync and asks for no tmpfs
    and no CPUs, whatever the function says; its path is the source of the
    trigger, it carries the ids of app, function and trigger, its config
    agrees with its fields, and the only header written is the id of the
    call. *)
Theorem FromHTTPTriggerRequest_model (app : App) (p : N) (trigger : Trigger)
    (req : Request) (ctx : Ctx) (c : call) (s : State) (f : Fn) :
  fns s !! p = Some f ->
  exists c' err s' m,
    FromHTTPTriggerRequest app p trigger req ctx c s = Ret (c', err) s' /\
    call_Call c' = Some m /\
    (Type_ m = "sync" /\ TmpFsSize m = 0%N /\ CPUs m = 0%N /\
     Memory m = Fn_Memory f /\ Image m = Fn_Image f /\
     Path m = Trigger_Source trigger /\
     AppID m = App_ID app /\ FnID m = Fn_ID f /\ TriggerID m = Trigger_ID trigger) /\
    (Config_ m !! "FN_PATH" = Some (Path m) /\
     Config_ m !! "FN_MEMORY" = Some (Sprintf_d (Memory m)) /\
     Config_ m !! "FN_TYPE" = Some (Type_ m) /\
     Config_ m !! "FN_FN_ID" = Some (FnID m) /\
     Config_ m !! "FN_FORMAT" = Some (Format m)) /\
    trace s' = (trace s ++ sniff_log req
                  ++ match w c with
                     | Some (ResponseWriter rw) =>
                         [HeaderAdd rw "FN_CALL_ID" (ID m)]
                     | _ => []
                     end)%list.
Proof.
  intros Hf.
  destruct (FromHTTPTriggerRequest_run app p trigger req ctx c s f Hf)
    as ([c' err] & s' & Hrun & _ & _ & Htrace & _ & _ & m & Hc' & Hparams & Hrest & _).
  simpl in Hc'.
  destruct Hparams as (HID & HPath & HImage & HType & HFormat & _ & _ & _ &
                       HTmp & HMem & HCPUs).
  destruct Hrest as (HConf & _ & _ & _ & _ & _ & HApp & HFn & HTrig & _).
  set (f' := Fn_set_Format (chosen_format (ce_detected req) (Fn_Format f)) f) in *.
  destruct (buildTriggerConfig_lookups app f' trigger) as (Hn & Hp & Hm & Ht & Hi).
  pose proof (buildTriggerConfig_format app f' trigger) as Hfm.
  exists c', err, s', m. split; [exact Hrun|]. split; [by rewrite Hc'|].
  rewrite HConf, HPath, HMem, HType, HTmp, HFormat, HFn, HID.
  split; [by split_and!|]. split; [|exact Htrace].
  rewrite Hp, Hm, Ht, Hi, Hfm. subst f'. by destruct f.
Qed.

(** X18: [FromEvent] has two outcomes only, the error for extensions that are
    no map, with the call untouched, and a panic; it never hands back a call
    with a model. *)
Theorem FromEvent_error_or_panic (event : CloudEvent) (ctx : Ctx) (c : call) (s : State) :
  FromEvent event ctx c s =
    Ret (c, Some (errors_New "cloud event extensions must be marshaled with known type")) s
  \/ FromEvent event ctx c s = Panicked assertion_failed s.
Proof.
  destruct (ce_Extensions event) as [|ext|d] eqn:Hext.
  - left. unfold FromEvent. by rewrite Hext.
  - right. by apply (FromEvent_map_panics _ ext).
  - left. unfold FromEvent. by rewrite Hext.
Qed.

(** X19: the keys of a config are those of the app, those of the route or
    function, and the synthesized ones; no key of the user is dropped. *)
Theorem buildConfig_keys_of (app : App) (r : Route) (f : Fn) (trigger : Trigger) :
  dom (buildConfig app r) =
    dom (App_Config app) ∪ dom (Route_Config r)
    ∪ list_to_set ["FN_FORMAT"; "FN_APP_NAME"; "FN_PATH"; "FN_MEMORY"; "FN_TYPE"; "FN_TMPSIZE"]
    ∪ (if decide (MilliCPUs_String (Route_CPUs r) = "") then ∅ else {["FN_CPUS"]}) /\
  dom (buildTriggerConfig app f trigger) =
    dom (App_Config app) ∪ dom (Fn_Config f)
    ∪ list_to_set ["FN_FORMAT"; "FN_APP_NAME"; "FN_PATH"; "FN_MEMORY"; "FN_TYPE"; "FN_FN_ID"].
Proof.
  unfold buildConfig, buildTriggerConfig.
  rewrite !copy_into_union, !(right_id_L ∅ (∪)).
  split.
  - destruct (decide (MilliCPUs_String (Route_CPUs r) ≠ "")) as [Hne|He].
    + rewrite (decide_False (P := MilliCPUs_String (Route_CPUs r) = "")) by done.
      rewrite !dom_insert_L, dom_union_L. set_unfold. intros k. tauto.
    + rewrite (decide_True (P := MilliCPUs_String (Route_CPUs r) = ""))
        by (by destruct (decide (MilliCPUs_String (Route_CPUs r) = ""))).
      rewrite !dom_insert_L, dom_union_L. set_unfold. intros k. tauto.
  - rewrite !dom_insert_L, dom_union_L. set_unfold. intros k. tauto.
Qed.

(** X20: [reqURL] prints the URL of the request with an empty scheme replaced
    by https under TLS and by http without, and an empty host replaced by the
    host of the request; the scheme it prints is never empty, and a URL that
    has both is printed as it is. *)
Theorem reqURL_fills_scheme_and_host (req : Request) :
  reqURL req = URL_String (filled_URL req) /\
  Scheme (filled_URL req) <> "" /\
  (Scheme (Req_URL req) <> "" -> Host (Req_URL req) <> "" ->
     filled_URL req = Req_URL req).
Proof.
  unfold reqURL, filled_URL.
  destruct (Req_URL req) as [sch host path]; simpl.
  destruct (decide (sch = "")), (decide (host = "")); simpl;
    rewrite ?decide_True, ?decide_False by done; simpl;
    (split; [done|]); (split; [by destruct (Req_TLS req)|done]).
Qed.


(** X16: assembled from an HTTP trigger alone, with no overrider and a body
    that reads, a call is checked for the memory of its function and nothing
    more: no CPUs, not async, and the check is the last step on record. *)
Theorem trigger_admission_demand (a : agent) (app : App) (p : N) (trigger : Trigger)
    (req : Request) (ctx : Ctx) (s : State) (f : Fn) :
  fns s !! p = Some f ->
  callOverrider a = None ->
  payload_error ctx
    (fst (payload_race ctx (Req_Body req) (snd (time_Now (snd (id_New (world s)))))))
    = None ->
  exists res s',
    GetCall a ctx [FromHTTPTriggerRequest app p trigger req] s = Ret res s' /\
    last (trace s') = Some (AdmissionCheck (uint64 (Fn_Memory f)) 0 false).
Proof.
  intros Hf Hov Hbody.
  destruct (FromHTTPTriggerRequest_run app p trigger req ctx zero_call s f Hf)
    as ([c' err] & s1 & Hrun & _ & _ & _ & _ & Herr & m & Hc' & Hparams & _).
  simpl in Hc', Herr. rewrite Hbody in Herr. subst err c'.
  destruct Hparams as (_ & _ & _ & HType & _ & _ & _ & _ & HTmp & HMem & HCPUs).
  unfold GetCall. simpl. unfold bind at 1. unfold bind at 1. rewrite Hrun. simpl.
  unfold bind, override, deref, ret. rewrite Hov. simpl.
  unfold admission, bind, emit, emits, outside, ret. simpl.
  rewrite HType, HTmp, HMem, HCPUs.
  replace (uint64 (Fn_Memory f + uint64 0)) with (uint64 (Fn_Memory f))
    by (by rewrite N.add_0_r).
  rewrite bool_decide_eq_false_2 by done.
  change (uint64 0) with 0%N.
  destruct (IsResourcePossible _ _ _ _ _) as [[|] w3]; simpl.
  - destruct (setupCtx _ w3) as [c2 w4]. simpl.
    destruct (setupLogger _ _ _ _) as [se w5]. simpl.
    eexists _, _. split; [reflexivity|]. simpl. by rewrite last_snoc.
  - eexists _, _. split; [reflexivity|]. simpl. by rewrite last_snoc.
Qed.

End Correctness.

(** ** The properties at work *)

(** A call of 128 MB with 256 MB of tmpfs on a machine with no room. *)
Lemma GetCall_admission_reject_witness :
  exists s3,
    @GetCall Fixture.platform Fixture.pkg Fixture.busy_agent Fixture.background
      [FromModel Fixture.model] Fixture.state
    = Ret (None, Some ErrCallTimeoutServerBusy) s3 /\
    trace s3 = [AdmissionCheck 384 100 false].
Proof.
  destruct (@GetCall_admission_reject Fixture.platform Fixture.pkg Fixture.busy_agent
              Fixture.background [FromModel Fixture.model] Fixture.state Fixture.state Fixture.state
              (set_call_Call (Some Fixture.model) zero_call)
              (set_call_Call (Some Fixture.model) zero_call) Fixture.model)
    as (m' & Hm' & _ & _ & Hreject).
  - constructor; [intros; apply hook_free_FromModel | constructor].
  - reflexivity.
  - reflexivity.
  - reflexivity.
  - injection Hm' as <-.
    destruct (Hreject 0%nat eq_refl) as (s3 & es & Hrun & _ & Htrace & _).
    exists s3. split; [exact Hrun | exact Htrace].
Defined.

(** A call that ends with an error of its own. *)
Lemma End_status_mapping_witness :
  exists c' m' r s',
    @call_End Fixture.platform Fixture.background (Some (foreign 9 "boom")) Fixture.assembled Fixture.state
    = Ret (c', r) s' /\
    call_Call c' = Some m' /\ Status m' = "error" /\ Error_ m' = "boom".
Proof.
  destruct (@End_status_mapping Fixture.platform Fixture.background (Some (foreign 9 "boom"))
              Fixture.assembled Fixture.state Fixture.model Fixture.failing_handler 7%N
              Fixture.failing_trigger eq_refl eq_refl eq_refl eq_refl)
    as (c' & m' & r & s' & Hrun & Hc & _ & _ & _ & Herror).
  destruct (Herror _ eq_refl ltac:(discriminate)) as [Hstatus Hmsg].
  exists c', m', r, s'. repeat split; assumption.
Defined.

(** An event whose extension map lacks the app: a panic, and no error. *)
Lemma FromEvent_no_app_panics :
  @FromEvent Fixture.platform Fixture.no_app Fixture.background zero_call Fixture.state
  = Panicked assertion_failed Fixture.state /\
  ~ exists c' e s',
      @FromEvent Fixture.platform Fixture.no_app Fixture.background zero_call Fixture.state
      = Ret (c', Some e) s'.
Proof.
  assert (@FromEvent Fixture.platform Fixture.no_app Fixture.background zero_call Fixture.state
          = Panicked assertion_failed Fixture.state) as Hrun by (vm_compute; reflexivity).
  split; [exact Hrun|]. intros (c' & e & s' & Hret). rewrite Hrun in Hret. discriminate.
Qed.

(** A well-shaped extension map is no better off. *)
Example FromEvent_well_shaped_panics :
  @FromEvent Fixture.platform Fixture.well_shaped Fixture.background zero_call Fixture.state
  = Panicked assertion_failed Fixture.state.
Proof. vm_compute. reflexivity. Qed.

(** A trigger config has no tmpfs size, and a route config keeps the CPU
    key of the app when the route has no CPUs of its own. *)
Lemma buildTriggerConfig_no_tmpsize_user_cpus_kept :
  buildTriggerConfig Fixture.app Fixture.fn Fixture.trigger !! "FN_TMPSIZE" = None /\
  (@MilliCPUs_String Fixture.platform (Route_CPUs Fixture.route) = "" /\
   @buildConfig Fixture.platform Fixture.app Fixture.route !! "FN_CPUS" = Some "900m").
Proof. vm_compute. repeat split; reflexivity. Qed.

(** A cloud event with a charset parameter on a route without a format. *)
Lemma content_type_sniffing_witness :
  exists c' err s' r',
    @FromRequest Fixture.platform Fixture.app 1%N
      (Fixture.request "application/cloudevents+json; charset=UTF-8")
      Fixture.background zero_call Fixture.state = Ret (c', err) s' /\
    IsCloudEvent c' = true /\
    routes s' !! 1%N = Some r' /\ Route_Format r' = "cloudevent".
Proof.
  destruct (@content_type_sniffing Fixture.platform Fixture.app 1%N 2%N Fixture.trigger
              (Fixture.request "application/cloudevents+json; charset=UTF-8")
              Fixture.background zero_call Fixture.state Fixture.route Fixture.fn eq_refl eq_refl)
    as [(c' & err & s' & r' & Hrun & Hflag & Hroute & Hfmt & _) _].
  exists c', err, s', r'. repeat split; assumption.
Defined.

(** A writer, then a configurator that fails, then a model that is never
    looked at; and a writer only. *)
Lemma GetCall_configurators_witness :
  @GetCall Fixture.platform Fixture.pkg Fixture.busy_agent Fixture.background
    ([WithWriter (OtherWriter 5)] ++ Fixture.failing_opt :: [FromModel Fixture.model]) Fixture.state
  = Ret (None, Some (foreign 3 "bad option")) Fixture.state /\
  @GetCall Fixture.platform Fixture.pkg Fixture.busy_agent Fixture.background
    [WithWriter (OtherWriter 5)] Fixture.state
  = Ret (None, Some (errors_New "no model or request provided for call")) Fixture.state.
Proof.
  destruct (@GetCall_configurators Fixture.platform Fixture.pkg Fixture.busy_agent Fixture.background
              [WithWriter (OtherWriter 5)] [FromModel Fixture.model] Fixture.failing_opt
              (set_w (Some (OtherWriter 5)) zero_call) Fixture.state Fixture.state)
    as [Hfail Hnil].
  - eapply applied_next; [reflexivity | apply applied_none].
  - split; [apply (Hfail _ _ _ eq_refl) | apply (Hnil eq_refl)].
Defined.

(** A cancelled context. *)
Lemma Start_done_context_witness :
  ctx_Err Fixture.cancelled = Some Canceled /\
  @call_Start Fixture.platform Fixture.cancelled Fixture.assembled Fixture.state
  = Ret (Fixture.assembled, Some Canceled) Fixture.state.
Proof.
  split; [reflexivity | apply Start_done_context; reflexivity].
Defined.

(** A call that succeeded, whose [Finish] and [AfterCall] both fail. *)
Lemma End_finish_and_aftercall_witness :
  exists c' r s',
    @call_End Fixture.platform Fixture.background None Fixture.assembled Fixture.state = Ret (c', r) s' /\
    r = Some (errorString "AfterCall: listener failed") /\
    LogError "error finalizing call on datastore/mq" (foreign 1 "datastore down") ∈ trace s'.
Proof.
  destruct (@End_finish_and_aftercall Fixture.platform Fixture.background None
              Fixture.assembled Fixture.state Fixture.model Fixture.failing_handler 7%N
              Fixture.failing_trigger eq_refl eq_refl eq_refl eq_refl)
    as (now & w1 & ferr & w2 & aerr & w3 & m' & c' & r & s' &
        Hnow & Hfin & Haft & Hrun & _ & _ & _ & Hr & Htrace).
  injection Hnow as <- <-. injection Hfin as <- <-. injection Haft as <- <-.
  exists c', r, s'. split; [exact Hrun|]. split; [exact Hr|].
  rewrite Htrace. simpl. set_solver.
Defined.

(** A call with 241 samples. *)
Lemma End_decimates_before_finish_witness :
  exists c' m' r s',
    @call_End Fixture.platform Fixture.background None Fixture.assembled Fixture.state = Ret (c', r) s' /\
    call_Call c' = Some m' /\ length (Stats Fixture.model) = 241 /\ length (Stats m') = 240.
Proof.
  destruct (@End_decimates_before_finish Fixture.platform Fixture.background None
              Fixture.assembled Fixture.state Fixture.model Fixture.failing_handler 7%N
              Fixture.failing_trigger eq_refl eq_refl eq_refl eq_refl)
    as (c' & m' & r & s' & async & later & Hrun & Hc & Hlen & _).
  - vm_compute. lia.
  - exists c', m', r, s'. repeat split; assumption.
Defined.

(** A plain request on a route without a format: the route of the caller
    now says default. *)
Lemma source_format_overwritten_witness :
  exists res s',
    @FromRequest Fixture.platform Fixture.app 1%N (Fixture.request "text/plain")
      Fixture.background zero_call Fixture.state = Ret res s' /\
    routes Fixture.state !! 1%N = Some Fixture.route /\
    routes s' !! 1%N = Some (Route_set_Format "default" Fixture.route) /\
    routes s' !! 1%N <> routes Fixture.state !! 1%N.
Proof.
  destruct (@source_format_overwritten Fixture.platform Fixture.app 1%N 2%N Fixture.trigger
              (Fixture.request "text/plain") Fixture.background zero_call Fixture.state
              Fixture.route Fixture.fn eq_refl eq_refl)
    as [(res & s' & Hrun & _ & _ & Hdefault & Hchanged) _].
  exists res, s'. split; [exact Hrun|]. split; [reflexivity|].
  split; [apply Hdefault; reflexivity|].
  apply Hchanged; [right; reflexivity | discriminate].
Defined.

(** The scenario of a cloud event with a charset on a route of 128 MB
    without CPUs: the config of the call says cloudevent and 128 and has no
    CPU key, and the response carries the id of the call. *)
Example cloud_event_on_route :
  match @FromRequest Fixture.platform Fixture.plain_app 1%N
          (Fixture.request "application/cloudevents+json; charset=UTF-8")
          Fixture.background (set_w (Some (ResponseWriter 3)) zero_call) Fixture.state
  with
  | Ret (c, err) s' =>
      (err, IsCloudEvent c,
       (fun m => (Config_ m !! "FN_FORMAT", Config_ m !! "FN_MEMORY",
                  Config_ m !! "FN_CPUS", Payload m)) <$> call_Call c,
       trace s')
      = (None, true, Some (Some "cloudevent", Some "128", None, "{}"),
         [HeaderAdd 3 "FN_CALL_ID" "01C0"])
  | Panicked _ _ => False
  end.
Proof. vm_compute. reflexivity. Qed.

(** The id of the call is on the response before the route is validated:
    a route without an image fails, and the header is there. *)
Example call_id_before_validation :
  match @FromRequest Fixture.platform Fixture.plain_app 3%N (Fixture.request "text/plain")
          Fixture.background (set_w (Some (ResponseWriter 3)) zero_call) Fixture.state
  with
  | Ret (c, err) s' =>
      (err, Format <$> call_Call c, trace s')
      = (Some (errorString "Missing route Image"), None, [HeaderAdd 3 "FN_CALL_ID" "01C0"])
  | Panicked _ _ => False
  end.
Proof. vm_compute. reflexivity. Qed.

(** ** The further properties at work *)

(** A sync call with an HTTP response as writer. *)
Lemma Start_marks_running_witness :
  exists c' s' m',
    @call_Start Fixture.platform Fixture.background Fixture.waiting Fixture.state
    = Ret (c', None) s' /\
    c' = set_call_Call (Some m') Fixture.waiting /\
    Status m' = "running" /\ StartedAt m' = 0%Z.
Proof.
  pose proof (@call_Start_sync_exec Fixture.platform Fixture.background Fixture.waiting
                Fixture.state Fixture.sync_model Fixture.quiet_trigger 0%Z 1%nat 1%nat None
                eq_refl eq_refl eq_refl ltac:(discriminate) eq_refl eq_refl) as Hrun.
  destruct (@Start_marks_running Fixture.platform Fixture.background Fixture.waiting
              _ Fixture.state _ Fixture.sync_model _ eq_refl eq_refl Hrun)
    as (m' & Hc & Hstatus & Hstarted & _).
  eexists _, _, m'. split; [exact Hrun|]. split; [exact Hc|].
  split; [exact Hstatus | exact Hstarted].
Defined.

(** The same call: the wait header, then [BeforeCall], and no reservation. *)
Lemma Start_sync_skips_persistence_witness :
  exists c' s' m',
    @call_Start Fixture.platform Fixture.background Fixture.waiting Fixture.state
    = Ret (c', None) s' /\
    trace s' = [HeaderSet 3 "XXX-FXLB-WAIT"
                  (@Duration_String Fixture.platform (StartedAt m' - CreatedAt m')%Z);
                FireBeforeCall m'].
Proof.
  destruct (@Start_sync_skips_persistence Fixture.platform Fixture.background
              Fixture.waiting Fixture.state Fixture.sync_model Fixture.quiet_trigger
              eq_refl eq_refl eq_refl ltac:(discriminate))
    as (c' & err & s' & m' & berr & Hrun & _ & _ & Htrace & Hberr & Herr).
  subst berr. simpl in Herr. subst err.
  exists c', s', m'. split; [exact Hrun | exact Htrace].
Defined.

(** An async call on a queue that is busy. *)
Lemma Start_async_reservation_failure_witness :
  exists c' s' m',
    @call_Start Fixture.platform Fixture.background Fixture.queued Fixture.state
    = Ret (c', Some (foreign 4 "queue busy")) s' /\
    call_Call c' = Some m' /\ Status m' = "running" /\
    trace s' = [HandlerStart m'].
Proof.
  destruct (@Start_async_reservation_failure Fixture.platform Fixture.background
              Fixture.queued Fixture.state Fixture.async_model Fixture.refusing_handler
              (foreign 4 "queue busy") 1%nat eq_refl eq_refl eq_refl eq_refl eq_refl)
    as (c' & s' & m' & Hrun & Hc & Hstatus & Htrace & _).
  exists c', s', m'. repeat split; assumption.
Defined.

(** An async call whose reservation succeeds. *)
Lemma Start_async_hook_order_witness :
  exists c' s' m',
    @call_Start Fixture.platform Fixture.background Fixture.reserved Fixture.state
    = Ret (c', None) s' /\
    trace s' = [HandlerStart m'; FireBeforeCall m'].
Proof.
  destruct (@Start_async_hook_order Fixture.platform Fixture.background
              Fixture.reserved Fixture.state Fixture.async_model Fixture.failing_handler
              Fixture.quiet_trigger 1%nat eq_refl eq_refl eq_refl eq_refl eq_refl eq_refl)
    as (c' & err & s' & m' & berr & Hrun & _ & Htrace & Hberr & Herr).
  subst berr. simpl in Herr. subst err.
  exists c', s', m'. split; [exact Hrun | exact Htrace].
Defined.

(** A call that ends well keeps its path and its memory. *)
Lemma End_keeps_parameters_witness :
  exists m' r s',
    @call_End Fixture.platform Fixture.background None Fixture.assembled Fixture.state
    = Ret (set_call_Call (Some m') Fixture.assembled, r) s' /\
    Path m' = "/hello" /\ Memory m' = 128%N.
Proof.
  destruct (@End_keeps_parameters Fixture.platform Fixture.background None
              Fixture.assembled Fixture.state Fixture.model Fixture.failing_handler 7%N
              Fixture.failing_trigger eq_refl eq_refl eq_refl eq_refl)
    as (m' & r & s' & Hrun & Hsame & _).
  destruct Hsame as (_ & HPath & _ & _ & _ & _ & _ & _ & _ & HMemory & _).
  exists m', r, s'. split; [exact Hrun|]. split; [exact HPath | exact HMemory].
Defined.

(** An error that only reads like the deadline is an error. *)
Lemma End_status_tells_outcome_witness :
  exists c' m' r s',
    @call_End Fixture.platform Fixture.background
      (Some (errorString "context deadline exceeded")) Fixture.assembled Fixture.state
    = Ret (c', r) s' /\
    call_Call c' = Some m' /\ Status m' = "error".
Proof.
  destruct (@End_status_tells_outcome Fixture.platform Fixture.background
              (Some (errorString "context deadline exceeded"))
              Fixture.assembled Fixture.state Fixture.model Fixture.failing_handler 7%N
              Fixture.failing_trigger eq_refl eq_refl eq_refl eq_refl)
    as (c' & m' & r & s' & Hrun & Hc & _ & _ & Herror).
  exists c', m', r, s'. split; [exact Hrun|]. split; [exact Hc|].
  apply Herror. eexists. split; [reflexivity | discriminate].
Defined.

(** Assembly from a stored model. *)
Lemma GetCall_fires_no_hook_witness :
  Forall (fun o : @CallOpt Fixture.platform => forall ctx c, hook_free (o ctx c))
    [FromModel Fixture.sync_model] /\
  hook_free (@GetCall Fixture.platform Fixture.pkg Fixture.roomy_agent Fixture.background
               [FromModel Fixture.sync_model]).
Proof.
  assert (Forall (fun o : @CallOpt Fixture.platform => forall ctx c, hook_free (o ctx c))
            [FromModel Fixture.sync_model]) as Hopts
    by (constructor; [intros; apply hook_free_FromModel | constructor]).
  split; [exact Hopts|].
  exact (@GetCall_fires_no_hook Fixture.platform Fixture.pkg Fixture.roomy_agent
           Fixture.background [FromModel Fixture.sync_model] Hopts).
Defined.

(** An overrider that refuses. *)
Lemma GetCall_overrider_error_witness :
  exists s2,
    @GetCall Fixture.platform Fixture.pkg Fixture.overruled_agent Fixture.background
      [FromModel Fixture.model] Fixture.state
    = Ret (None, Some (foreign 5 "not allowed")) s2 /\
    trace s2 = [CallOverride Fixture.model ∅].
Proof.
  destruct (@GetCall_overrider_error Fixture.platform Fixture.pkg Fixture.overruled_agent
              Fixture.background [FromModel Fixture.model] Fixture.state Fixture.state
              (set_call_Call (Some Fixture.model) zero_call) Fixture.model Fixture.model
              Fixture.refusing_overrider ∅ (foreign 5 "not allowed") 0%nat
              eq_refl eq_refl eq_refl eq_refl)
    as (s2 & Hrun & _ & Htrace).
  exists s2. split; [exact Hrun | exact Htrace].
Defined.

(** A call from a stored model, without a writer: it writes to its log. *)
Lemma GetCall_admitted_witness :
  exists c' s',
    @GetCall Fixture.platform Fixture.pkg Fixture.roomy_agent Fixture.background
      [FromModel Fixture.model] Fixture.state = Ret (Some c', None) s' /\
    stderr c' = Some 7%N /\ w c' = Some (StderrWriter 7) /\
    call_Call c' = Some Fixture.model.
Proof.
  destruct (@GetCall_admitted Fixture.platform Fixture.pkg Fixture.roomy_agent
              Fixture.background [FromModel Fixture.model]
              Fixture.state Fixture.state Fixture.state
              (set_call_Call (Some Fixture.model) zero_call)
              (set_call_Call (Some Fixture.model) zero_call)
              (set_call_Call (Some Fixture.model) zero_call)
              Fixture.model Fixture.model 0%nat 0%nat 0%nat 7%N
              eq_refl eq_refl eq_refl eq_refl eq_refl eq_refl eq_refl)
    as (c' & s' & Hrun & _ & _ & Hstderr & Hw & Hmodel & _).
  exists c', s'. repeat split; assumption.
Defined.

(** A stored model after a writer and another stored model. *)
Lemma last_source_wins_witness :
  @apply_opts Fixture.platform Fixture.background
    ([WithWriter (OtherWriter 5); FromModel Fixture.model] ++ [FromModel Fixture.async_model])
    zero_call Fixture.state
  = Ret (set_call_Call (Some Fixture.async_model)
           (set_call_Call (Some Fixture.model) (set_w (Some (OtherWriter 5)) zero_call)),
         None) Fixture.state.
Proof.
  apply (@last_source_wins Fixture.platform Fixture.background).
  eapply applied_next; [reflexivity|].
  eapply applied_next; [reflexivity | apply applied_none].
Defined.

(** Memory of 2^64 - 1 and a tmpfs size of 2 are checked as 1. *)
Lemma admission_demand_wraps_witness :
  exists res s' later,
    @admission Fixture.platform Fixture.pkg Fixture.roomy_agent Fixture.background
      Fixture.huge_model zero_call Fixture.state = Ret res s' /\
    trace s' = AdmissionCheck 1 0 false :: later.
Proof.
  destruct (@admission_demand_wraps Fixture.platform Fixture.pkg Fixture.roomy_agent
              Fixture.background Fixture.huge_model zero_call Fixture.state
              eq_refl eq_refl ltac:(discriminate))
    as (res & s' & later & demand & Hrun & Htrace & -> & _).
  exists res, s', later. split; [exact Hrun | exact Htrace].
Defined.

(** A request on a route with an HTTP response as writer. *)
Lemma FromRequest_call_id_on_response_witness :
  exists c' err s',
    @FromRequest Fixture.platform Fixture.plain_app 1%N (Fixture.request "text/plain")
      Fixture.background (set_w (Some (ResponseWriter 3)) zero_call) Fixture.state
    = Ret (c', err) s' /\
    trace s' = [HeaderAdd 3 "FN_CALL_ID" "01C0"].
Proof.
  destruct (@FromRequest_call_id_on_response Fixture.platform Fixture.plain_app 1%N
              (Fixture.request "text/plain") Fixture.background
              (set_w (Some (ResponseWriter 3)) zero_call) Fixture.state Fixture.route
              eq_refl)
    as (c' & err & s' & Hrun & Hheader & _).
  exists c', err, s'. split; [exact Hrun|].
  exact (Hheader 3%N eq_refl).
Defined.

(** A request on a route without an image. *)
Lemma FromRequest_invalid_route_stops_early_witness :
  exists c' s',
    @FromRequest Fixture.platform Fixture.plain_app 3%N (Fixture.request "text/plain")
      Fixture.background zero_call Fixture.state
    = Ret (c', Some (errorString "Missing route Image")) s' /\
    call_Call c' = None /\ world s' = 1%nat.
Proof.
  destruct (@FromRequest_invalid_route_stops_early Fixture.platform Fixture.plain_app 3%N
              (Fixture.request "text/plain") Fixture.background zero_call Fixture.state
              Fixture.no_image (errorString "Missing route Image") eq_refl eq_refl)
    as (c' & s' & Hrun & Hmodel & _ & _ & Hworld).
  exists c', s'. repeat split; assumption.
Defined.

(** A request on a route of 128 MB. *)
Lemma FromRequest_model_mirrors_route_witness :
  exists c' err s' m,
    @FromRequest Fixture.platform Fixture.plain_app 1%N (Fixture.request "text/plain")
      Fixture.background zero_call Fixture.state = Ret (c', err) s' /\
    call_Call c' = Some m /\ Memory m = 128%N /\
    Config_ m !! "FN_MEMORY" = Some "128".
Proof.
  destruct (@FromRequest_model_mirrors_route Fixture.platform Fixture.plain_app 1%N
              (Fixture.request "text/plain") Fixture.background zero_call Fixture.state
              Fixture.route eq_refl eq_refl)
    as (c' & err & s' & m & Hrun & Hc & Hparams & Hconf & _).
  destruct Hparams as (_ & _ & _ & _ & _ & _ & HMemory & _).
  destruct Hconf as (_ & HFN_MEMORY & _).
  exists c', err, s', m. split; [exact Hrun|]. split; [exact Hc|].
  split; [exact HMemory|]. rewrite HFN_MEMORY, HMemory. reflexivity.
Defined.

(** A request on a trigger. *)
Lemma FromHTTPTriggerRequest_model_witness :
  exists c' err s' m,
    @FromHTTPTriggerRequest Fixture.platform Fixture.plain_app 2%N Fixture.trigger
      (Fixture.request "text/plain") Fixture.background zero_call Fixture.state
    = Ret (c', err) s' /\
    call_Call c' = Some m /\ Type_ m = "sync" /\ FnID m = "fn1".
Proof.
  destruct (@FromHTTPTriggerRequest_model Fixture.platform Fixture.plain_app 2%N
              Fixture.trigger (Fixture.request "text/plain") Fixture.background
              zero_call Fixture.state Fixture.fn eq_refl)
    as (c' & err & s' & m & Hrun & Hc & Hparams & _).
  destruct Hparams as (HType & _ & _ & _ & _ & _ & _ & HFn & _).
  exists c', err, s', m. repeat split; assumption.
Defined.


(** A trigger on a function of 128 MB. *)
Lemma trigger_admission_demand_witness :
  exists res s',
    @GetCall Fixture.platform Fixture.pkg Fixture.roomy_agent Fixture.background
      [FromHTTPTriggerRequest Fixture.plain_app 2%N Fixture.trigger
         (Fixture.request "text/plain")] Fixture.state = Ret res s' /\
    last (trace s') = Some (AdmissionCheck 128 0 false).
Proof.
  destruct (@trigger_admission_demand Fixture.platform Fixture.pkg Fixture.roomy_agent
              Fixture.plain_app 2%N Fixture.trigger (Fixture.request "text/plain")
              Fixture.background Fixture.state Fixture.fn eq_refl eq_refl eq_refl)
    as (res & s' & Hrun & Hlast).
  exists res, s'. split; [exact Hrun | exact Hlast].
Defined.
